(** * interview-api: gaze calibrator and cheating detector

    A shallow embedding of [core/gaze_calibrator.py], [core/config.py] and
    [core/detect.py].

    Numbers.  The Python code computes on floats; here every float is an
    exact rational ([Q]), so rounding, infinities and NaN are outside the
    model.  Python ints that only count things are [Z].  The wall clock is
    an explicit input: every method that reads [time.time()] or
    [datetime.now()] takes the reading as an argument. *)

From Stdlib Require Import ZArith QArith Qminmax Qabs List String Bool Lia Lqa.
Import ListNotations.
Open Scope Q_scope.

(** ** Python and numpy primitives *)

(** [a > b] and [a < b] on floats, as booleans. *)
Definition Qgtb (a b : Q) : bool := negb (Qle_bool a b).
Definition Qltb (a b : Q) : bool := negb (Qle_bool b a).

(** Python's two-argument [max(a, b)]: [b] when [b > a], otherwise [a]. *)
Definition py_max (a b : Q) : Q := if Qgtb b a then b else a.

(** Python's two-argument [min(a, b)]: [b] when [b < a], otherwise [a]. *)
Definition py_min (a b : Q) : Q := if Qltb b a then b else a.

Definition np_maximum (a b : Q) : Q := if Qle_bool b a then a else b.
Definition np_minimum (a b : Q) : Q := if Qle_bool a b then a else b.

(** [np.clip(a, a_min, a_max)], which numpy documents as
    [np.minimum(a_max, np.maximum(a, a_min))]. *)
Definition np_clip (a a_min a_max : Q) : Q :=
  np_minimum a_max (np_maximum a a_min).

(** [np.pi]: the binary64 constant, which is this rational number. *)
Definition np_pi : Q := 884279719003555 # 281474976710656.

(** [math.sqrt] / [np.sqrt] on a rational: the square root truncated to a
    multiple of [2^-52].  No statement below depends on how good the
    approximation is. *)
Definition Qsqrt (q : Q) : Q :=
  Z.sqrt (Qnum q * Zpos (Qden q) * 2 ^ 104) # (Qden q * 2 ^ 52).

Definition Qsum (l : list Q) : Q := fold_right Qplus 0 l.

(** [len(l)] as a number. *)
Definition len {A} (l : list A) : Z := Z.of_nat (List.length l).

(** [np.mean] of a one-dimensional array. *)
Definition np_mean (l : list Q) : Q := Qsum l / inject_Z (len l).

(** [np.std]: the population standard deviation (ddof = 0). *)
Definition np_std (l : list Q) : Q :=
  let m := np_mean l in
  Qsqrt (np_mean (map (fun x => (x - m) * (x - m)) l)).

(** ** core/gaze_calibrator.py *)

Module Calibrator.

(** One entry of the detector's reply: [gaze_data.get('yaw', 0)] reads a key
    that may be missing. *)
Record GazeData := {
  gd_yaw : option Q;
  gd_pitch : option Q
}.

Definition get (o : option Q) (dflt : Q) : Q :=
  match o with Some v => v | None => dflt end.

(** The dict returned by [analyze_facial_structure]. *)
Record FacialStructure := {
  face_dimensions : Q * Q;
  eye_distance : Q;
  eye_center : Q * Q;
  left_eye : Q * Q;
  right_eye : Q * Q;
  nose_tip : option (Q * Q)
}.

Record FaceBaseline := {
  fb_width : Q;
  fb_height : Q;
  fb_width_std : Q;
  fb_height_std : Q
}.

Record EyeBaseline := {
  eb_distance : Q;
  eb_distance_std : Q
}.

Record HeadPoseBaseline := {
  hb_yaw : Q;
  hb_pitch : Q;
  hb_yaw_std : Q;
  hb_pitch_std : Q
}.

Record CalibrationData := {
  cd_eye_distances : list Q;
  cd_face_dimensions : list (Q * Q);
  cd_head_poses : list (Q * Q);
  cd_pupil_positions : list (Q * Q)
}.

Record GazeCalibrator := {
  face_baseline : option FaceBaseline;
  eye_baseline : option EyeBaseline;
  head_pose_baseline : option HeadPoseBaseline;
  adaptation_frames : Z;
  frame_count : Z;
  calibration_data : CalibrationData
}.

(** [GazeCalibrator.__init__] *)
Definition init : GazeCalibrator := {|
  face_baseline := None;
  eye_baseline := None;
  head_pose_baseline := None;
  adaptation_frames := 30;
  frame_count := 0;
  calibration_data := {|
    cd_eye_distances := [];
    cd_face_dimensions := [];
    cd_head_poses := [];
    cd_pupil_positions := [] |}
|}.

(** The three dicts [_establish_baseline] builds from the accumulator. *)
Definition face_stats (dims : list (Q * Q)) : FaceBaseline := {|
  fb_width := np_mean (map fst dims);
  fb_height := np_mean (map snd dims);
  fb_width_std := np_std (map fst dims);
  fb_height_std := np_std (map snd dims)
|}.

Definition eye_stats (ds : list Q) : EyeBaseline := {|
  eb_distance := np_mean ds;
  eb_distance_std := np_std ds
|}.

Definition head_pose_stats (poses : list (Q * Q)) : HeadPoseBaseline := {|
  hb_yaw := np_mean (map fst poses);
  hb_pitch := np_mean (map snd poses);
  hb_yaw_std := np_std (map fst poses);
  hb_pitch_std := np_std (map snd poses)
|}.

Definition _establish_baseline (self : GazeCalibrator) : GazeCalibrator :=
  let cd := calibration_data self in
  if (len (cd_face_dimensions cd) >? 0)%Z then
    {| face_baseline := Some (face_stats (cd_face_dimensions cd));
       eye_baseline := Some (eye_stats (cd_eye_distances cd));
       head_pose_baseline := Some (head_pose_stats (cd_head_poses cd));
       adaptation_frames := adaptation_frames self;
       frame_count := frame_count self;
       calibration_data := cd |}
  else self.

(** [update_baseline]: the new calibrator and the returned bool. *)
Definition update_baseline (self : GazeCalibrator) (gaze_data : GazeData)
    (facial_structure : option FacialStructure) : GazeCalibrator * bool :=
  match facial_structure with
  | None => (self, false)
  | Some fs =>
    let cd := calibration_data self in
    let yaw := get (gd_yaw gaze_data) 0 in
    let pitch := get (gd_pitch gaze_data) 0 in
    let self1 := {|
      face_baseline := face_baseline self;
      eye_baseline := eye_baseline self;
      head_pose_baseline := head_pose_baseline self;
      adaptation_frames := adaptation_frames self;
      frame_count := frame_count self + 1;
      calibration_data := {|
        cd_eye_distances := cd_eye_distances cd ++ [eye_distance fs];
        cd_face_dimensions := cd_face_dimensions cd ++ [face_dimensions fs];
        cd_head_poses := cd_head_poses cd ++ [(yaw, pitch)];
        cd_pupil_positions := cd_pupil_positions cd |} |} in
    if (frame_count self1 >=? adaptation_frames self1)%Z
    then (_establish_baseline self1, true)
    else (self1, false)
  end.

Definition is_calibrated (self : GazeCalibrator) : bool :=
  match face_baseline self, eye_baseline self, head_pose_baseline self with
  | Some _, Some _, Some _ => true
  | _, _, _ => false
  end.

(** [_calculate_confidence].  [None] stands for the exception Python raises
    when [self.eye_baseline] is subscripted while it is still [None]. *)
Definition _calculate_confidence (self : GazeCalibrator)
    (facial_structure : option FacialStructure) : option Q :=
  match face_baseline self, facial_structure with
  | Some fb, Some fs =>
    let face_width_diff := Qabs (fst (face_dimensions fs) - fb_width fb) in
    let face_height_diff := Qabs (snd (face_dimensions fs) - fb_height fb) in
    let size_consistency :=
      1 - py_min 1 ((face_width_diff + face_height_diff) / 200) in
    match eye_baseline self with
    | Some eb =>
      let eye_dist_diff := Qabs (eye_distance fs - eb_distance eb) in
      let eye_consistency := 1 - py_min 1 (eye_dist_diff / 50) in
      Some ((size_consistency + eye_consistency) / 2)
    | None => None
    end
  | _, _ => Some 0
  end.

(** The dict returned by [calibrated_gaze_prediction]. *)
Record CalibratedGaze := {
  calibrated_yaw : Q;
  calibrated_pitch : Q;
  raw_yaw : Q;
  raw_pitch : Q;
  confidence : Q
}.

(** [calibrated_gaze_prediction].  The outer [option] is Python's [None]
    result; in a calibrated state [_calculate_confidence] cannot raise. *)
Definition calibrated_gaze_prediction (self : GazeCalibrator)
    (gaze_data : GazeData) (facial_structure : FacialStructure)
    : option CalibratedGaze :=
  if negb (is_calibrated self) then None else
  match head_pose_baseline self, face_baseline self,
        _calculate_confidence self (Some facial_structure) with
  | Some hb, Some fb, Some conf =>
    let raw_yaw := get (gd_yaw gaze_data) 0 in
    let raw_pitch := get (gd_pitch gaze_data) 0 in
    let head_yaw_offset := raw_yaw - hb_yaw hb in
    let head_pitch_offset := raw_pitch - hb_pitch hb in
    let face_scale_x := fst (face_dimensions facial_structure) / fb_width fb in
    let face_scale_y := snd (face_dimensions facial_structure) / fb_height fb in
    let calibrated_yaw := head_yaw_offset * face_scale_x in
    let calibrated_pitch := head_pitch_offset * face_scale_y in
    Some {| calibrated_yaw := np_clip calibrated_yaw (- np_pi / 2) (np_pi / 2);
            calibrated_pitch := np_clip calibrated_pitch (- np_pi / 3) (np_pi / 3);
            raw_yaw := raw_yaw;
            raw_pitch := raw_pitch;
            confidence := conf |}
  | _, _, _ => None
  end.

(** A session: [update_baseline] called once per frame, results collected. *)
Fixpoint run_updates (self : GazeCalibrator)
    (frames : list (GazeData * option FacialStructure))
    : GazeCalibrator * list bool :=
  match frames with
  | [] => (self, [])
  | (g, fs) :: rest =>
    let '(self1, b) := update_baseline self g fs in
    let '(self2, bs) := run_updates self1 rest in
    (self2, b :: bs)
  end.

(** States a session can be in: [__init__], then [update_baseline] calls. *)
Inductive reachable : GazeCalibrator -> Prop :=
| reach_init : reachable init
| reach_update self g fs :
    reachable self -> reachable (fst (update_baseline self g fs)).

(** How many of the frames carried a facial structure. *)
Definition accepted (frames : list (GazeData * option FacialStructure)) : Z :=
  len (filter (fun f => match snd f with Some _ => true | None => false end)
         frames).

(** What holds of the calibrator between calls: the counter is the length of
    the accumulated lists, and the baselines are the statistics of the whole
    accumulator once the counter is at 30, and unset before. *)
Definition calibrator_inv (self : GazeCalibrator) : Prop :=
  adaptation_frames self = 30%Z /\
  frame_count self = len (cd_face_dimensions (calibration_data self)) /\
  if (frame_count self >=? 30)%Z then
    face_baseline self =
      Some (face_stats (cd_face_dimensions (calibration_data self))) /\
    eye_baseline self =
      Some (eye_stats (cd_eye_distances (calibration_data self))) /\
    head_pose_baseline self =
      Some (head_pose_stats (cd_head_poses (calibration_data self)))
  else
    face_baseline self = None /\ eye_baseline self = None /\
    head_pose_baseline self = None.

(** Sample data: a face of the given width, and a detector reply. *)
Definition sample_face (w : Q) : FacialStructure := {|
  face_dimensions := (w, 200);
  eye_distance := 60;
  eye_center := (130, 100);
  left_eye := (100, 100);
  right_eye := (160, 100);
  nose_tip := Some (130, 140)
|}.

Definition sample_gaze : GazeData := {| gd_yaw := Some 1; gd_pitch := None |}.

(** Thirty frames of the same face: a session up to its 30th frame. *)
Definition thirty_frames : list (GazeData * option FacialStructure) :=
  repeat (sample_gaze, Some (sample_face 100)) 30.

Definition calibrated_30 : GazeCalibrator :=
  fst (run_updates init thirty_frames).

End Calibrator.

(** ** core/config.py *)

Module Config.

(** The class attributes of [CheatingDetectionConfig].  The mode switches
    assign to the class, so the value every detector reads is this record. *)
Record CheatingDetectionConfig := {
  SUSPICIOUS_GAZE_THRESHOLD : Q;
  CHEATING_GAZE_THRESHOLD : Q;
  ALERT_COOLDOWN : Q;
  DOWNWARD_GAZE_ANGLE : Q;
  SIDE_GAZE_ANGLE : Q;
  HEAD_MOVEMENT_THRESHOLD : Q;
  REPEATED_MOVEMENT_COUNT : Z;
  MAX_DOWNWARD_LOOKS : Z;
  MAX_SIDE_LOOKS : Z;
  MAX_HEAD_TURNS : Z;
  MAX_SUSPICION_SCORE : Q;
  HIGH_SUSPICION_THRESHOLD : Q;
  LOOKING_AWAY_PENALTY : Q;
  DOWNWARD_LOOK_PENALTY : Q;
  SIDE_LOOK_PENALTY : Q;
  HEAD_MOVEMENT_PENALTY : Q;
  DURATION_MULTIPLIER : Q;
  RECOVERY_RATE : Q
}.

(** The class body. *)
Definition initial : CheatingDetectionConfig := {|
  SUSPICIOUS_GAZE_THRESHOLD := 3.0;
  CHEATING_GAZE_THRESHOLD := 5.0;
  ALERT_COOLDOWN := 10;
  DOWNWARD_GAZE_ANGLE := 0.3;
  SIDE_GAZE_ANGLE := 0.5;
  HEAD_MOVEMENT_THRESHOLD := 0.4;
  REPEATED_MOVEMENT_COUNT := 3;
  MAX_DOWNWARD_LOOKS := 10;
  MAX_SIDE_LOOKS := 8;
  MAX_HEAD_TURNS := 15;
  MAX_SUSPICION_SCORE := 100;
  HIGH_SUSPICION_THRESHOLD := 70;
  LOOKING_AWAY_PENALTY := 0.5;
  DOWNWARD_LOOK_PENALTY := 1.0;
  SIDE_LOOK_PENALTY := 1.5;
  HEAD_MOVEMENT_PENALTY := 2.0;
  DURATION_MULTIPLIER := 2.0;
  RECOVERY_RATE := -0.2
|}.

(** The five attributes a mode switch assigns; the others are kept. *)
Definition set_mode (cls : CheatingDetectionConfig)
    (suspicious cheating : Q) (down side : Z) (high : Q)
    : CheatingDetectionConfig := {|
  SUSPICIOUS_GAZE_THRESHOLD := suspicious;
  CHEATING_GAZE_THRESHOLD := cheating;
  ALERT_COOLDOWN := ALERT_COOLDOWN cls;
  DOWNWARD_GAZE_ANGLE := DOWNWARD_GAZE_ANGLE cls;
  SIDE_GAZE_ANGLE := SIDE_GAZE_ANGLE cls;
  HEAD_MOVEMENT_THRESHOLD := HEAD_MOVEMENT_THRESHOLD cls;
  REPEATED_MOVEMENT_COUNT := REPEATED_MOVEMENT_COUNT cls;
  MAX_DOWNWARD_LOOKS := down;
  MAX_SIDE_LOOKS := side;
  MAX_HEAD_TURNS := MAX_HEAD_TURNS cls;
  MAX_SUSPICION_SCORE := MAX_SUSPICION_SCORE cls;
  HIGH_SUSPICION_THRESHOLD := high;
  LOOKING_AWAY_PENALTY := LOOKING_AWAY_PENALTY cls;
  DOWNWARD_LOOK_PENALTY := DOWNWARD_LOOK_PENALTY cls;
  SIDE_LOOK_PENALTY := SIDE_LOOK_PENALTY cls;
  HEAD_MOVEMENT_PENALTY := HEAD_MOVEMENT_PENALTY cls;
  DURATION_MULTIPLIER := DURATION_MULTIPLIER cls;
  RECOVERY_RATE := RECOVERY_RATE cls
|}.

Definition set_strict_mode (cls : CheatingDetectionConfig) :=
  set_mode cls 2.0 3.0 5 4 50.

Definition set_moderate_mode (cls : CheatingDetectionConfig) :=
  set_mode cls 3.0 5.0 10 8 70.

Definition set_lenient_mode (cls : CheatingDetectionConfig) :=
  set_mode cls 5.0 8.0 15 12 80.

(** A dict with string keys, in insertion order, and [d.get(k, dflt)]. *)
Definition dict (V : Type) := list (string * V).

Fixpoint dict_get {V} (d : dict V) (k : string) (dflt : V) : V :=
  match d with
  | [] => dflt
  | (k', v) :: rest => if String.eqb k' k then v else dict_get rest k dflt
  end.

Record AlertInfo := {
  message : string;
  severity : string;
  description : option string
}.

Definition ALERT_MESSAGES : dict AlertInfo := [
  ("PROLONGED_DISTRACTION"%string,
   {| message := "Candidate looking away from screen for extended period";
      severity := "HIGH";
      description :=
        Some "May indicate reading notes or consulting external resources"%string |});
  ("HIGH_SUSPICION"%string,
   {| message := "High suspicion score reached";
      severity := "HIGH";
      description := Some "Multiple suspicious behaviors detected"%string |});
  ("REPETITIVE_PATTERNS"%string,
   {| message := "Repetitive suspicious movement patterns detected";
      severity := "MEDIUM";
      description :=
        Some "Consistent looking away patterns may indicate systematic cheating"%string |});
  ("RAPID_HEAD_MOVEMENT"%string,
   {| message := "Unusual head movement patterns";
      severity := "MEDIUM";
      description :=
        Some "Rapid or repetitive head movements may indicate communication with others"%string |})
].

Definition BEHAVIOR_DESCRIPTIONS : dict string := [
  ("downward_looks", "Looking down (potentially reading notes or using phone)");
  ("side_looks", "Looking to the side (potentially viewing other screens or people)");
  ("head_turns", "Frequent head turning (potentially communicating with others)");
  ("prolonged_absence", "Extended periods without face detection");
  ("rapid_movements", "Rapid head movements (potentially checking surroundings)")
]%string.

End Config.

(** ** core/detect.py *)

Module Detector.
Import Config.

Local Open Scope string_scope.

(** What the process clock returns during one call: [time.time()] and
    [datetime.now().isoformat()]. *)
Record Clock := {
  time_time : Q;
  datetime_now : string
}.

(** The dict [repeated_patterns]; its three keys never change. *)
Record RepeatedPatterns := {
  downward_looks : Z;
  side_looks : Z;
  head_turns : Z
}.

(** [repeated_patterns.items()], in insertion order. *)
Definition items (p : RepeatedPatterns) : dict Z := [
  ("downward_looks", downward_looks p);
  ("side_looks", side_looks p);
  ("head_turns", head_turns p)
].

(** One entry of [cheating_alerts]. *)
Record CheatingAlert := {
  a_timestamp : string;
  a_reason : string;
  a_suspicion_score : Q;
  a_total_away_time : Q;
  a_patterns : RepeatedPatterns;
  a_alert_info : AlertInfo
}.

(** The attributes of a [CheatingDetector]. *)
Record CheatingDetector := {
  config : CheatingDetectionConfig;
  looking_away_start : option Q;
  suspicious_events : list string;
  cheating_alerts : list CheatingAlert;
  last_alert_time : Q;
  head_movement_history : list (Q * Q);
  gaze_off_screen_history : list bool;
  alert_active : bool;
  total_looking_away_time : Q;
  session_start_time : Q;
  repeated_patterns : RepeatedPatterns;
  suspicion_score : Q
}.

(** [CheatingDetector.__init__], with the class configuration [cfg] and the
    clock reading [clk] taken for [session_start_time]. *)
Definition init (cfg : CheatingDetectionConfig) (clk : Clock)
    : CheatingDetector := {|
  config := cfg;
  looking_away_start := None;
  suspicious_events := [];
  cheating_alerts := [];
  last_alert_time := 0;
  head_movement_history := [];
  gaze_off_screen_history := [];
  alert_active := false;
  total_looking_away_time := 0;
  session_start_time := time_time clk;
  repeated_patterns :=
    {| downward_looks := 0; side_looks := 0; head_turns := 0 |};
  suspicion_score := 0
|}.

(** Attribute assignments [self.x = v]. *)
Definition set_config v (s : CheatingDetector) : CheatingDetector :=
  {| config := v;
     looking_away_start := looking_away_start s;
     suspicious_events := suspicious_events s;
     cheating_alerts := cheating_alerts s;
     last_alert_time := last_alert_time s;
     head_movement_history := head_movement_history s;
     gaze_off_screen_history := gaze_off_screen_history s;
     alert_active := alert_active s;
     total_looking_away_time := total_looking_away_time s;
     session_start_time := session_start_time s;
     repeated_patterns := repeated_patterns s;
     suspicion_score := suspicion_score s |}.

Definition set_looking_away_start v (s : CheatingDetector) : CheatingDetector :=
  {| config := config s;
     looking_away_start := v;
     suspicious_events := suspicious_events s;
     cheating_alerts := cheating_alerts s;
     last_alert_time := last_alert_time s;
     head_movement_history := head_movement_history s;
     gaze_off_screen_history := gaze_off_screen_history s;
     alert_active := alert_active s;
     total_looking_away_time := total_looking_away_time s;
     session_start_time := session_start_time s;
     repeated_patterns := repeated_patterns s;
     suspicion_score := suspicion_score s |}.

Definition set_cheating_alerts v (s : CheatingDetector) : CheatingDetector :=
  {| config := config s;
     looking_away_start := looking_away_start s;
     suspicious_events := suspicious_events s;
     cheating_alerts := v;
     last_alert_time := last_alert_time s;
     head_movement_history := head_movement_history s;
     gaze_off_screen_history := gaze_off_screen_history s;
     alert_active := alert_active s;
     total_looking_away_time := total_looking_away_time s;
     session_start_time := session_start_time s;
     repeated_patterns := repeated_patterns s;
     suspicion_score := suspicion_score s |}.

Definition set_last_alert_time v (s : CheatingDetector) : CheatingDetector :=
  {| config := config s;
     looking_away_start := looking_away_start s;
     suspicious_events := suspicious_events s;
     cheating_alerts := cheating_alerts s;
     last_alert_time := v;
     head_movement_history := head_movement_history s;
     gaze_off_screen_history := gaze_off_screen_history s;
     alert_active := alert_active s;
     total_looking_away_time := total_looking_away_time s;
     session_start_time := session_start_time s;
     repeated_patterns := repeated_patterns s;
     suspicion_score := suspicion_score s |}.

Definition set_head_movement_history v (s : CheatingDetector) : CheatingDetector :=
  {| config := config s;
     looking_away_start := looking_away_start s;
     suspicious_events := suspicious_events s;
     cheating_alerts := cheating_alerts s;
     last_alert_time := last_alert_time s;
     head_movement_history := v;
     gaze_off_screen_history := gaze_off_screen_history s;
     alert_active := alert_active s;
     total_looking_away_time := total_looking_away_time s;
     session_start_time := session_start_time s;
     repeated_patterns := repeated_patterns s;
     suspicion_score := suspicion_score s |}.

Definition set_alert_active v (s : CheatingDetector) : CheatingDetector :=
  {| config := config s;
     looking_away_start := looking_away_start s;
     suspicious_events := suspicious_events s;
     cheating_alerts := cheating_alerts s;
     last_alert_time := last_alert_time s;
     head_movement_history := head_movement_history s;
     gaze_off_screen_history := gaze_off_screen_history s;
     alert_active := v;
     total_looking_away_time := total_looking_away_time s;
     session_start_time := session_start_time s;
     repeated_patterns := repeated_patterns s;
     suspicion_score := suspicion_score s |}.

Definition set_total_looking_away_time v (s : CheatingDetector) : CheatingDetector :=
  {| config := config s;
     looking_away_start := looking_away_start s;
     suspicious_events := suspicious_events s;
     cheating_alerts := cheating_alerts s;
     last_alert_time := last_alert_time s;
     head_movement_history := head_movement_history s;
     gaze_off_screen_history := gaze_off_screen_history s;
     alert_active := alert_active s;
     total_looking_away_time := v;
     session_start_time := session_start_time s;
     repeated_patterns := repeated_patterns s;
     suspicion_score := suspicion_score s |}.

Definition set_repeated_patterns v (s : CheatingDetector) : CheatingDetector :=
  {| config := config s;
     looking_away_start := looking_away_start s;
     suspicious_events := suspicious_events s;
     cheating_alerts := cheating_alerts s;
     last_alert_time := last_alert_time s;
     head_movement_history := head_movement_history s;
     gaze_off_screen_history := gaze_off_screen_history s;
     alert_active := alert_active s;
     total_looking_away_time := total_looking_away_time s;
     session_start_time := session_start_time s;
     repeated_patterns := v;
     suspicion_score := suspicion_score s |}.

Definition set_suspicion_score v (s : CheatingDetector) : CheatingDetector :=
  {| config := config s;
     looking_away_start := looking_away_start s;
     suspicious_events := suspicious_events s;
     cheating_alerts := cheating_alerts s;
     last_alert_time := last_alert_time s;
     head_movement_history := head_movement_history s;
     gaze_off_screen_history := gaze_off_screen_history s;
     alert_active := alert_active s;
     total_looking_away_time := total_looking_away_time s;
     session_start_time := session_start_time s;
     repeated_patterns := repeated_patterns s;
     suspicion_score := v |}.

(** [deque(maxlen=n).append(x)]: the oldest entry leaves when full. *)
Definition deque_append {A} (maxlen : nat) (d : list A) (x : A) : list A :=
  let d' := (d ++ [x])%list in
  skipn (List.length d' - maxlen) d'.

(** [d[-2]] on a deque of at least two entries. *)
Definition second_last {A} (d : list A) (dflt : A) : A :=
  nth (List.length d - 2) d dflt.

(** The keys [extra_data] adds to a detection result. *)
Record ExtraData := {
  x_looking_away_duration : Q;
  x_total_away_time : Q;
  x_suspicion_score : Q;
  x_head_movement_velocity : Q;
  x_yaw : Q;
  x_pitch : Q;
  x_confidence : Q
}.

(** The dict a call returns: the five base keys, then [result.update]. *)
Record DetectionResult := {
  r_timestamp : Q;
  r_is_looking_away : bool;
  r_alert_level : string;
  r_suspicion_score : Q;
  r_total_alerts : Z;
  r_extra : option ExtraData
}.

Definition _create_detection_result (self : CheatingDetector)
    (is_looking_away : bool) (alert_level : string) (timestamp : Q)
    (extra_data : option ExtraData) : DetectionResult :=
  match extra_data with
  | None =>
    {| r_timestamp := timestamp;
       r_is_looking_away := is_looking_away;
       r_alert_level := alert_level;
       r_suspicion_score := suspicion_score self;
       r_total_alerts := len (cheating_alerts self);
       r_extra := None |}
  | Some e =>
    {| r_timestamp := timestamp;
       r_is_looking_away := is_looking_away;
       r_alert_level := alert_level;
       r_suspicion_score := x_suspicion_score e;
       r_total_alerts := len (cheating_alerts self);
       r_extra := Some e |}
  end.

Definition _is_looking_away (self : CheatingDetector) (yaw pitch : Q) : bool :=
  if Qgtb pitch (DOWNWARD_GAZE_ANGLE (config self)) then true
  else if Qgtb (Qabs yaw) (SIDE_GAZE_ANGLE (config self)) then true
  else false.

(** [_calculate_head_movement]: the velocity and the updated detector. *)
Definition _calculate_head_movement (self : CheatingDetector) (yaw pitch : Q)
    : Q * CheatingDetector :=
  let current_pose := (yaw, pitch) in
  let self := set_head_movement_history
                (deque_append 50 (head_movement_history self) current_pose) self in
  if (len (head_movement_history self) <? 2)%Z then (0.0, self)
  else
    let prev_pose := second_last (head_movement_history self) (0, 0) in
    let velocity :=
      Qsqrt ((yaw - fst prev_pose) ^ 2 + (pitch - snd prev_pose) ^ 2) in
    (velocity, self).

Definition _update_pattern_detection (self : CheatingDetector)
    (yaw pitch current_time : Q) : CheatingDetector :=
  let cfg := config self in
  let p := repeated_patterns self in
  let p := if Qgtb pitch (DOWNWARD_GAZE_ANGLE cfg)
           then {| downward_looks := downward_looks p + 1;
                   side_looks := side_looks p;
                   head_turns := head_turns p |}
           else p in
  let p := if Qgtb (Qabs yaw) (SIDE_GAZE_ANGLE cfg)
           then {| downward_looks := downward_looks p;
                   side_looks := side_looks p + 1;
                   head_turns := head_turns p |}
           else p in
  let p := if Qgtb (Qabs yaw) (HEAD_MOVEMENT_THRESHOLD cfg)
           then {| downward_looks := downward_looks p;
                   side_looks := side_looks p;
                   head_turns := head_turns p + 1 |}
           else p in
  set_repeated_patterns p self.

Definition _calculate_suspicion_increase (self : CheatingDetector)
    (is_looking_away : bool) (duration head_velocity yaw pitch : Q) : Q :=
  let cfg := config self in
  let increase := 0 in
  let increase :=
    if is_looking_away then
      let increase := increase + LOOKING_AWAY_PENALTY cfg in
      let increase :=
        if Qgtb pitch (DOWNWARD_GAZE_ANGLE cfg)
        then increase + DOWNWARD_LOOK_PENALTY cfg else increase in
      let increase :=
        if Qgtb (Qabs yaw) (SIDE_GAZE_ANGLE cfg * 1.5)
        then increase + SIDE_LOOK_PENALTY cfg else increase in
      increase
    else increase in
  let increase :=
    if Qgtb head_velocity (HEAD_MOVEMENT_THRESHOLD cfg)
    then increase + HEAD_MOVEMENT_PENALTY cfg else increase in
  let increase :=
    if Qgtb duration (SUSPICIOUS_GAZE_THRESHOLD cfg)
    then increase * DURATION_MULTIPLIER cfg else increase in
  let increase :=
    if negb is_looking_away then RECOVERY_RATE cfg else increase in
  increase.

Definition _trigger_alert (self : CheatingDetector) (reason : string)
    (current_time : Q) (clk : Clock) : CheatingDetector :=
  let self := set_last_alert_time current_time self in
  let self := set_alert_active true self in
  let alert := {|
    a_timestamp := datetime_now clk;
    a_reason := reason;
    a_suspicion_score := suspicion_score self;
    a_total_away_time := total_looking_away_time self;
    a_patterns := repeated_patterns self;
    a_alert_info :=
      dict_get ALERT_MESSAGES reason
        {| message := reason; severity := "MEDIUM"; description := None |} |} in
  set_cheating_alerts (cheating_alerts self ++ [alert])%list self.

(** [_determine_alert_level]: the level and the updated detector. *)
Definition _determine_alert_level (self : CheatingDetector)
    (looking_away_duration current_time : Q) (clk : Clock)
    : string * CheatingDetector :=
  let cfg := config self in
  if Qltb (current_time - last_alert_time self) (ALERT_COOLDOWN cfg) then
    if alert_active self then ("ONGOING_ALERT", self) else ("NO_ALERT", self)
  else if Qgtb (suspicion_score self) (HIGH_SUSPICION_THRESHOLD cfg) then
    ("CHEATING_DETECTED", _trigger_alert self "HIGH_SUSPICION" current_time clk)
  else if Qgtb looking_away_duration (CHEATING_GAZE_THRESHOLD cfg) then
    ("CHEATING_DETECTED",
     _trigger_alert self "PROLONGED_DISTRACTION" current_time clk)
  else if Qgtb looking_away_duration (SUSPICIOUS_GAZE_THRESHOLD cfg) then
    ("SUSPICIOUS_BEHAVIOR", self)
  else if ((downward_looks (repeated_patterns self) >? MAX_DOWNWARD_LOOKS cfg)
           || (side_looks (repeated_patterns self) >? MAX_SIDE_LOOKS cfg)
           || (head_turns (repeated_patterns self) >? MAX_HEAD_TURNS cfg))%Z
  then
    ("CHEATING_DETECTED",
     _trigger_alert self "REPETITIVE_PATTERNS" current_time clk)
  else ("NO_ALERT", set_alert_active false self).

(** [analyze_gaze_behavior]: the returned dict and the detector after the
    call.  [clk] is what the clock reads during the call. *)
Definition analyze_gaze_behavior (self : CheatingDetector)
    (calibrated_gaze : option Calibrator.CalibratedGaze)
    (facial_structure : option Calibrator.FacialStructure)
    (frame_timestamp : Q) (clk : Clock)
    : DetectionResult * CheatingDetector :=
  let current_time := time_time clk in
  match calibrated_gaze, facial_structure with
  | Some cg, Some _ =>
    let yaw := Calibrator.calibrated_yaw cg in
    let pitch := Calibrator.calibrated_pitch cg in
    let confidence := Calibrator.confidence cg in
    if Qltb confidence 0.3 then
      (_create_detection_result self false "Low confidence gaze data"
         current_time None, self)
    else
      let is_looking_away := _is_looking_away self yaw pitch in
      let '(looking_away_duration, self) :=
        if is_looking_away then
          match looking_away_start self with
          | None =>
            let self := set_looking_away_start (Some current_time) self in
            (current_time - current_time, self)
          | Some start => (current_time - start, self)
          end
        else
          match looking_away_start self with
          | Some start =>
            let away_duration := current_time - start in
            let self :=
              set_total_looking_away_time
                (total_looking_away_time self + away_duration) self in
            let self := set_looking_away_start None self in
            (0, self)
          | None => (0, self)
          end in
      let '(head_movement_velocity, self) :=
        _calculate_head_movement self yaw pitch in
      let self := _update_pattern_detection self yaw pitch current_time in
      let suspicion_increase :=
        _calculate_suspicion_increase self is_looking_away
          looking_away_duration head_movement_velocity yaw pitch in
      let self :=
        set_suspicion_score
          (py_min (MAX_SUSPICION_SCORE (config self))
                  (py_max 0 (suspicion_score self + suspicion_increase)))
          self in
      let '(alert_level, self) :=
        _determine_alert_level self looking_away_duration current_time clk in
      (_create_detection_result self is_looking_away alert_level current_time
         (Some {| x_looking_away_duration := looking_away_duration;
                  x_total_away_time := total_looking_away_time self;
                  x_suspicion_score := suspicion_score self;
                  x_head_movement_velocity := head_movement_velocity;
                  x_yaw := yaw;
                  x_pitch := pitch;
                  x_confidence := confidence |}),
       self)
  | _, _ =>
    (_create_detection_result self false "No gaze data" current_time None,
     self)
  end.

(** One value of the dict [_generate_behavior_analysis] builds. *)
Record BehaviorEntry := {
  b_count : Z;
  b_description : string;
  b_severity : string
}.

Definition _generate_behavior_analysis (self : CheatingDetector)
    : dict BehaviorEntry :=
  flat_map
    (fun '(pattern_type, count) =>
       if (count >? 0)%Z then
         [(pattern_type,
           {| b_count := count;
              b_description :=
                dict_get BEHAVIOR_DESCRIPTIONS pattern_type "Unknown behavior";
              b_severity :=
                if (count >? 10)%Z then "HIGH"
                else if (count >? 5)%Z then "MEDIUM" else "LOW" |})]
       else [])
    (items (repeated_patterns self)).

(** The dict [get_session_summary] returns. *)
Record SessionSummary := {
  session_duration : Q;
  total_alerts : Z;
  s_total_looking_away_time : Q;
  away_time_percentage : Q;
  final_suspicion_score : Q;
  s_repeated_patterns : RepeatedPatterns;
  alerts : list CheatingAlert;
  behavior_analysis : dict BehaviorEntry
}.

(** [get_session_summary]; it assigns to no attribute, so the detector is
    the same afterwards. *)
Definition get_session_summary (self : CheatingDetector) (clk : Clock)
    : SessionSummary :=
  let session_duration := time_time clk - session_start_time self in
  {| session_duration := session_duration;
     total_alerts := len (cheating_alerts self);
     s_total_looking_away_time := total_looking_away_time self;
     away_time_percentage :=
       if Qgtb session_duration 0
       then (total_looking_away_time self / session_duration) * 100
       else 0;
     final_suspicion_score := suspicion_score self;
     s_repeated_patterns := repeated_patterns self;
     alerts := cheating_alerts self;
     behavior_analysis := _generate_behavior_analysis self |}.

Definition reset_patterns (self : CheatingDetector) : CheatingDetector :=
  let p := repeated_patterns self in
  set_repeated_patterns
    {| downward_looks := Z.max 0 (downward_looks p - 1);
       side_looks := Z.max 0 (side_looks p - 1);
       head_turns := Z.max 0 (head_turns p - 1) |}
    self.

Definition set_detection_mode (self : CheatingDetector) (mode : string)
    : CheatingDetector :=
  if String.eqb mode "strict" then
    set_config (set_strict_mode (config self)) self
  else if String.eqb mode "lenient" then
    set_config (set_lenient_mode (config self)) self
  else set_config (set_moderate_mode (config self)) self.

(** The arguments of one [analyze_gaze_behavior] call and the clock. *)
Record Frame := {
  f_gaze : option Calibrator.CalibratedGaze;
  f_face : option Calibrator.FacialStructure;
  f_timestamp : Q;
  f_clock : Clock
}.

Definition step (self : CheatingDetector) (f : Frame)
    : DetectionResult * CheatingDetector :=
  analyze_gaze_behavior self (f_gaze f) (f_face f) (f_timestamp f) (f_clock f).

(** A sequence of calls: the results in order and the final detector. *)
Fixpoint run (self : CheatingDetector) (frames : list Frame)
    : list DetectionResult * CheatingDetector :=
  match frames with
  | [] => ([], self)
  | f :: rest =>
    let '(r, self) := step self f in
    let '(rs, self) := run self rest in
    (r :: rs, self)
  end.

(** Detector states of a session: [CheatingDetector()] on the class
    configuration, then any calls of the public methods. *)
Inductive reachable : CheatingDetector -> Prop :=
| reach_init clk : reachable (init Config.initial clk)
| reach_analyze self cg fs ts clk :
    reachable self ->
    reachable (snd (analyze_gaze_behavior self cg fs ts clk))
| reach_reset self :
    reachable self -> reachable (reset_patterns self)
| reach_mode self mode :
    reachable self -> reachable (set_detection_mode self mode).

(** The suspicion delta as the specification words it: the branch delta
    (recovery rate, or the away penalties), then the head-movement penalty on
    top of whichever branch fired, then the duration multiplier. *)
Definition spec_suspicion_delta (cfg : CheatingDetectionConfig)
    (is_looking_away : bool) (duration head_velocity yaw pitch : Q) : Q :=
  let delta :=
    if is_looking_away then
      LOOKING_AWAY_PENALTY cfg
      + (if Qgtb pitch (DOWNWARD_GAZE_ANGLE cfg)
         then DOWNWARD_LOOK_PENALTY cfg else 0)
      + (if Qgtb (Qabs yaw) (SIDE_GAZE_ANGLE cfg * 1.5)
         then SIDE_LOOK_PENALTY cfg else 0)
    else RECOVERY_RATE cfg in
  let delta :=
    if Qgtb head_velocity (HEAD_MOVEMENT_THRESHOLD cfg)
    then delta + HEAD_MOVEMENT_PENALTY cfg else delta in
  if Qgtb duration (SUSPICIOUS_GAZE_THRESHOLD cfg)
  then delta * DURATION_MULTIPLIER cfg else delta.

(** The message the input guard of [analyze_gaze_behavior] puts in the
    alert-level slot when it rejects a call; [None] when the call passes. *)
Definition guard_message (calibrated_gaze : option Calibrator.CalibratedGaze)
    (facial_structure : option Calibrator.FacialStructure) : option string :=
  match calibrated_gaze, facial_structure with
  | Some cg, Some _ =>
    if Qltb (Calibrator.confidence cg) 0.3
    then Some "Low confidence gaze data" else None
  | _, _ => Some "No gaze data"
  end.

(** A frame with both inputs present, confidence at least 0.3, and a gaze
    that is not away under configuration [cfg]. *)
Definition attentive (cfg : CheatingDetectionConfig) (f : Frame) : Prop :=
  exists cg fs,
    f_gaze f = Some cg /\ f_face f = Some fs /\
    0.3 <= Calibrator.confidence cg /\
    Calibrator.calibrated_pitch cg <= DOWNWARD_GAZE_ANGLE cfg /\
    Qabs (Calibrator.calibrated_yaw cg) <= SIDE_GAZE_ANGLE cfg.

(** Sample data: a clock reading, a gaze, a frame, a fresh detector. *)
Definition clock_at (t : Z) : Clock :=
  {| time_time := inject_Z t; datetime_now := "2024-05-01T10:00:00" |}.

Definition gaze_of (yaw pitch conf : Q) : Calibrator.CalibratedGaze :=
  {| Calibrator.calibrated_yaw := yaw;
     Calibrator.calibrated_pitch := pitch;
     Calibrator.raw_yaw := yaw;
     Calibrator.raw_pitch := pitch;
     Calibrator.confidence := conf |}.

Definition frame_at (t : Z) (yaw pitch conf : Q) : Frame :=
  {| f_gaze := Some (gaze_of yaw pitch conf);
     f_face := Some (Calibrator.sample_face 100);
     f_timestamp := 0;
     f_clock := clock_at t |}.

Definition fresh : CheatingDetector := init Config.initial (clock_at 1000).

(** Seven frames one second apart, looking down (pitch 0.5): the seventh
    fires PROLONGED_DISTRACTION at time 1006. *)
Definition looking_down_frames : list Frame :=
  map (fun t => frame_at t 0 0.5 0.9)
      [1000; 1001; 1002; 1003; 1004; 1005; 1006]%Z.

Definition alerted : CheatingDetector := snd (run fresh looking_down_frames).

(** The same session one frame earlier, before the alert. *)
Definition before_alert : CheatingDetector :=
  snd (run fresh (firstn 6 looking_down_frames)).

End Detector.


(** ** Sessions of the detector *)

Module Session.
Import Config Detector.

(** The clock reading of a frame. *)
Definition time_of (f : Frame) : Q := time_time (f_clock f).

(** A frame that passes the input guard and whose gaze is away from the
    screen under configuration [cfg]. *)
Definition away (cfg : CheatingDetectionConfig) (f : Frame) : Prop :=
  exists cg fs,
    f_gaze f = Some cg /\ f_face f = Some fs /\
    0.3 <= Calibrator.confidence cg /\
    (DOWNWARD_GAZE_ANGLE cfg < Calibrator.calibrated_pitch cg \/
     SIDE_GAZE_ANGLE cfg < Qabs (Calibrator.calibrated_yaw cg)).

(** A frame the input guard rejects. *)
Definition rejected (f : Frame) : Prop :=
  guard_message (f_gaze f) (f_face f) <> None.

(** The clock never runs backwards: readings from [t] on, in call order. *)
Fixpoint ordered_from (t : Q) (frames : list Frame) : Prop :=
  match frames with
  | [] => True
  | f :: rest => t <= time_of f /\ ordered_from (time_of f) rest
  end.

(** The clock reading of the last call, or [t] when there was none. *)
Fixpoint last_time (t : Q) (frames : list Frame) : Q :=
  match frames with
  | [] => t
  | f :: rest => last_time (time_of f) rest
  end.

(** The away-time bookkeeping at clock reading [t]: the session started no
    later than [t], and the accumulated away time fits between the session
    start and [t], or the start of the away episode under way. *)
Definition timing_inv (s : CheatingDetector) (t : Q) : Prop :=
  session_start_time s <= t /\
  0 <= total_looking_away_time s /\
  match looking_away_start s with
  | None => total_looking_away_time s <= t - session_start_time s
  | Some t0 =>
    t0 <= t /\ total_looking_away_time s <= t0 - session_start_time s
  end.

(** [reset_patterns] called [n] times. *)
Definition reset_patterns_n (n : nat) (self : CheatingDetector)
    : CheatingDetector :=
  Nat.iter n reset_patterns self.

(** The three reasons [_determine_alert_level] passes to [_trigger_alert]. *)
Definition fired_reasons : list string :=
  ["HIGH_SUSPICION"; "PROLONGED_DISTRACTION"; "REPETITIVE_PATTERNS"]%string.

End Session.

(** ** core/gaze_calibrator.py: facial structure *)

Module FaceAnalysis.
Import Calibrator.

(** A landmark dict: [landmark["x"]], [landmark["y"]]. *)
Record Landmark := {
  lm_x : Q;
  lm_y : Q
}.

(** The [face] dict of a detection; [landmarks] is read with
    [face_data.get("landmarks", [])], so the key may be missing. *)
Record FaceData := {
  face_x : Q;
  face_y : Q;
  width : Q;
  height : Q;
  landmarks : option (list Landmark)
}.

(** The loop over [enumerate(landmarks)]: the first three landmarks are
    kept as left eye, right eye and nose tip. *)
Fixpoint scan_landmarks (i : nat) (ls : list Landmark)
    (acc : option (Q * Q) * option (Q * Q) * option (Q * Q))
    : option (Q * Q) * option (Q * Q) * option (Q * Q) :=
  match ls with
  | [] => acc
  | landmark :: rest =>
    let '(left_eye, right_eye, nose_tip) := acc in
    let p := (lm_x landmark, lm_y landmark) in
    let acc :=
      if (i =? 0)%nat then (Some p, right_eye, nose_tip)
      else if (i =? 1)%nat then (left_eye, Some p, nose_tip)
      else if (i =? 2)%nat then (left_eye, right_eye, Some p)
      else acc in
    scan_landmarks (S i) rest acc
  end.

Definition analyze_facial_structure (face_data : FaceData)
    : option FacialStructure :=
  let landmarks :=
    match landmarks face_data with Some l => l | None => [] end in
  if (len landmarks <? 5)%Z then None
  else
    let face_width := width face_data in
    let face_height := height face_data in
    let '(left_eye, right_eye, nose_tip) :=
      scan_landmarks 0 landmarks (None, None, None) in
    match left_eye, right_eye with
    | Some left_eye, Some right_eye =>
      let eye_distance :=
        Qsqrt ((fst right_eye - fst left_eye) ^ 2
               + (snd right_eye - snd left_eye) ^ 2) in
      let eye_center :=
        ((fst left_eye + fst right_eye) / 2,
         (snd left_eye + snd right_eye) / 2) in
      Some {| face_dimensions := (face_width, face_height);
              eye_distance := eye_distance;
              eye_center := eye_center;
              left_eye := left_eye;
              right_eye := right_eye;
              nose_tip := nose_tip |}
    | _, _ => None
    end.

(** Sample data: a face with the five landmarks of a detection. *)
Definition sample_face_data : FaceData := {|
  face_x := 320;
  face_y := 240;
  width := 150;
  height := 200;
  landmarks :=
    Some [ {| lm_x := 290; lm_y := 220 |}; {| lm_x := 350; lm_y := 220 |};
           {| lm_x := 320; lm_y := 270 |}; {| lm_x := 300; lm_y := 250 |};
           {| lm_x := 340; lm_y := 250 |} ]
|}.

End FaceAnalysis.

(** ** core/gaze_analyzer.py: GazeSmoothing *)

Module Smoothing.

Record GazeSmoothing := {
  window_size : nat;
  yaw_history : list Q;
  pitch_history : list Q;
  gaze_point_history : list (Q * Q)
}.

(** [GazeSmoothing.__init__]; the default window is SMOOTHING_WINDOW = 7. *)
Definition init (window_size : nat) : GazeSmoothing := {|
  window_size := window_size;
  yaw_history := [];
  pitch_history := [];
  gaze_point_history := []
|}.

Definition add_gaze (self : GazeSmoothing) (yaw pitch : Q)
    (gaze_point : Q * Q) : GazeSmoothing := {|
  window_size := window_size self;
  yaw_history :=
    Detector.deque_append (window_size self) (yaw_history self) yaw;
  pitch_history :=
    Detector.deque_append (window_size self) (pitch_history self) pitch;
  gaze_point_history :=
    Detector.deque_append (window_size self) (gaze_point_history self)
      gaze_point
|}.

(** [np.linspace(start, stop, num)]. *)
Definition np_linspace (start stop : Q) (num : nat) : list Q :=
  match num with
  | 0%nat => []
  | 1%nat => [start]
  | _ =>
    let step := (stop - start) / inject_Z (Z.of_nat num - 1) in
    map (fun i => start + inject_Z (Z.of_nat i) * step) (seq 0 num)
  end.

(** The elementwise product of two arrays. *)
Fixpoint np_multiply (a w : list Q) : list Q :=
  match a, w with
  | x :: a', y :: w' => x * y :: np_multiply a' w'
  | _, _ => []
  end.

(** [np.average(a, weights=w)]. *)
Definition np_average (a w : list Q) : Q := Qsum (np_multiply a w) / Qsum w.

(** [astype(int)]: truncation toward zero. *)
Definition astype_int (q : Q) : Z := Z.quot (Qnum q) (Zpos (Qden q)).

(** The weights of [get_smoothed_gaze] for a history of [n] samples. *)
Definition weights (n : nat) : list Q :=
  let w := np_linspace 0.5 1.0 n in
  map (fun x => x / Qsum w) w.

(** [get_smoothed_gaze]; [None] stands for the triple of [None]s. *)
Definition get_smoothed_gaze (self : GazeSmoothing)
    : option (Q * Q * (Z * Z)) :=
  if (len (yaw_history self) =? 0)%Z then None
  else
    let weights := weights (List.length (yaw_history self)) in
    let smoothed_yaw := np_average (yaw_history self) weights in
    let smoothed_pitch := np_average (pitch_history self) weights in
    let smoothed_gaze_point :=
      (astype_int (np_average (map fst (gaze_point_history self)) weights),
       astype_int (np_average (map snd (gaze_point_history self)) weights)) in
    Some (smoothed_yaw, smoothed_pitch, smoothed_gaze_point).

(** States of a smoother: a new one, then [add_gaze] calls. *)
Inductive reachable (n : nat) : GazeSmoothing -> Prop :=
| reach_init : reachable n (init n)
| reach_add self yaw pitch gaze_point :
    reachable n self -> reachable n (add_gaze self yaw pitch gaze_point).

End Smoothing.

(** ** core/detect.py: detect_gazes; app/detection.py: VideoProcessor *)

Module Video.
Import Calibrator FaceAnalysis Detector.

Local Open Scope string_scope.

(** One detection: [gaze["face"]], [gaze["yaw"]], [gaze["pitch"]]. *)
Record Gaze := {
  face : FaceData;
  yaw : Q;
  pitch : Q
}.

(** The detection seen through [gaze_data.get('yaw', 0)]. *)
Definition gaze_data_of (gaze : Gaze) : GazeData :=
  {| gd_yaw := Some (yaw gaze); gd_pitch := Some (pitch gaze) |}.

(** [detect_gazes].  [api_key] is the environment's ROBOFLOW_API_KEY,
    [frame_shape] is [frame.shape] as (rows, columns) and [predictions] is
    what the detection service answers for the frame; without a key the
    service is not called and a dummy detection is returned. *)
Definition detect_gazes (api_key : string) (frame_shape : Z * Z)
    (predictions : list Gaze) : list Gaze :=
  if String.eqb api_key "" then
    let rows := fst frame_shape in
    let cols := snd frame_shape in
    [ {| face :=
           {| face_x := inject_Z (cols / 2);
              face_y := inject_Z (rows / 2);
              width := 150;
              height := 200;
              landmarks :=
                Some [ {| lm_x := inject_Z (cols / 2 - 30);
                          lm_y := inject_Z (rows / 2 - 20) |};
                       {| lm_x := inject_Z (cols / 2 + 30);
                          lm_y := inject_Z (rows / 2 - 20) |};
                       {| lm_x := inject_Z (cols / 2);
                          lm_y := inject_Z (rows / 2 + 30) |};
                       {| lm_x := inject_Z (cols / 2 - 20);
                          lm_y := inject_Z (rows / 2 + 10) |};
                       {| lm_x := inject_Z (cols / 2 + 20);
                          lm_y := inject_Z (rows / 2 + 10) |} ] |};
         yaw := 0.0;
         pitch := 0.0 |} ]
  else predictions.

Record VideoProcessor := {
  cheating_detector : CheatingDetector;
  gaze_calibrator : GazeCalibrator
}.

(** [VideoProcessor.__init__], with the class configuration and the clock
    reading the detector takes as its session start. *)
Definition init (cfg : Config.CheatingDetectionConfig) (clk : Clock)
    : VideoProcessor :=
  {| cheating_detector := Detector.init cfg clk;
     gaze_calibrator := Calibrator.init |}.

(** The value under ['details'] in a frame analysis. *)
Record Details := {
  d_yaw : Q;
  d_pitch : Q;
  d_confidence : Q
}.

(** The dict [frame_analysis]; the last two keys exist only after an
    update. *)
Record FrameAnalysis := {
  fa_frame_number : Z;
  fa_timestamp : Q;
  fa_alert_level : string;
  fa_suspicion_score : Q;
  fa_is_looking_away : option bool;
  fa_details : option Details
}.

(** The body of the loop over the detections of a frame, as far as the
    processor's state and [frame_analysis] go; the image and its overlays
    are not part of the model, and the drawing calls are taken not to
    raise.  [clk] is the clock reading while this detection is handled. *)
Definition process_gaze (timestamp : Q)
    (acc : FrameAnalysis * VideoProcessor) (gaze_clk : Gaze * Clock)
    : FrameAnalysis * VideoProcessor :=
  let '(frame_analysis, self) := acc in
  let '(gaze, clk) := gaze_clk in
  match analyze_facial_structure (face gaze) with
  | Some facial_structure =>
    let calibrator :=
      fst (update_baseline (gaze_calibrator self) (gaze_data_of gaze)
             (Some facial_structure)) in
    let self := {| cheating_detector := cheating_detector self;
                   gaze_calibrator := calibrator |} in
    match calibrated_gaze_prediction calibrator (gaze_data_of gaze)
            facial_structure with
    | Some calibrated_gaze =>
      if is_calibrated calibrator then
        let '(detection_result, detector) :=
          analyze_gaze_behavior (cheating_detector self)
            (Some calibrated_gaze) (Some facial_structure) timestamp clk in
        ({| fa_frame_number := fa_frame_number frame_analysis;
            fa_timestamp := fa_timestamp frame_analysis;
            fa_alert_level := r_alert_level detection_result;
            fa_suspicion_score := r_suspicion_score detection_result;
            fa_is_looking_away := Some (r_is_looking_away detection_result);
            fa_details :=
              Some {| d_yaw := calibrated_yaw calibrated_gaze;
                      d_pitch := calibrated_pitch calibrated_gaze;
                      d_confidence := confidence calibrated_gaze |} |},
         {| cheating_detector := detector;
            gaze_calibrator := calibrator |})
      else (frame_analysis, self)
    | None => (frame_analysis, self)
    end
  | None => (frame_analysis, self)
  end.

(** [_process_single_frame]: the frame analysis and the processor after
    the frame.  [gazes] is what [detect_gazes] returned for the frame, each
    detection with the clock reading while it is handled. *)
Definition _process_single_frame (self : VideoProcessor)
    (gazes : list (Gaze * Clock)) (timestamp : Q) (frame_number : Z)
    : FrameAnalysis * VideoProcessor :=
  let frame_analysis :=
    {| fa_frame_number := frame_number;
       fa_timestamp := timestamp;
       fa_alert_level := "NO_ALERT";
       fa_suspicion_score := 0;
       fa_is_looking_away := None;
       fa_details := None |} in
  fold_left (process_gaze timestamp) gazes (frame_analysis, self).

(** A frame of the video: its detections with their clock readings, and its
    timestamp and number. *)
Record VideoFrame := {
  vf_gazes : list (Gaze * Clock);
  vf_timestamp : Q;
  vf_number : Z
}.

(** The frames of a video processed in order. *)
Fixpoint process_frames (self : VideoProcessor) (frames : list VideoFrame)
    : list FrameAnalysis * VideoProcessor :=
  match frames with
  | [] => ([], self)
  | f :: rest =>
    let '(a, self) :=
      _process_single_frame self (vf_gazes f) (vf_timestamp f) (vf_number f) in
    let '(rest_a, self) := process_frames self rest in
    (a :: rest_a, self)
  end.

(** A frame as the processor sees it when no API key is set: the dummy
    detection for a frame of the given shape. *)
Definition keyless_frame (frame_shape : Z * Z) (clk : Clock) (timestamp : Q)
    (frame_number : Z) : VideoFrame :=
  {| vf_gazes := map (fun g => (g, clk)) (detect_gazes "" frame_shape []);
     vf_timestamp := timestamp;
     vf_number := frame_number |}.

(** The [frame_analysis] a frame starts with. *)
Definition default_analysis (timestamp : Q) (frame_number : Z)
    : FrameAnalysis :=
  {| fa_frame_number := frame_number;
     fa_timestamp := timestamp;
     fa_alert_level := "NO_ALERT";
     fa_suspicion_score := 0;
     fa_is_looking_away := None;
     fa_details := None |}.

(** How many detections of the frame have five landmarks or more. *)
Definition structured (gazes : list (Gaze * Clock)) : Z :=
  len (filter
         (fun gc =>
            match analyze_facial_structure (face (fst gc)) with
            | Some _ => true
            | None => false
            end) gazes).

(** A detector that has seen nothing suspicious so far. *)
Definition quiet (det : CheatingDetector) : Prop :=
  config det = Config.initial /\
  suspicion_score det = 0 /\
  cheating_alerts det = [] /\
  alert_active det = false /\
  repeated_patterns det =
    {| downward_looks := 0; side_looks := 0; head_turns := 0 |} /\
  looking_away_start det = None.

(** A calibrator that has accumulated dummy detections only: every face is
    150 by 200 with eyes 60 apart and a head pose of zero. *)
Definition dummy_data (cal : GazeCalibrator) : Prop :=
  let cd := calibration_data cal in
  len (cd_eye_distances cd) = frame_count cal /\
  len (cd_head_poses cd) = frame_count cal /\
  Forall (fun d => fst d == 150 /\ snd d == 200) (cd_face_dimensions cd) /\
  Forall (fun x => x == 60) (cd_eye_distances cd) /\
  Forall (fun p => fst p == 0 /\ snd p == 0) (cd_head_poses cd).

(** States of a processor: a new one, then frames. *)
Inductive reachable : VideoProcessor -> Prop :=
| reach_init cfg clk : reachable (init cfg clk)
| reach_frame self gazes timestamp frame_number :
    reachable self ->
    reachable (snd (_process_single_frame self gazes timestamp frame_number)).

End Video.
(** * Properties *)

(** ** Comparisons, clamps *)

Lemma Qle_bool_false (a b : Q) : Qle_bool a b = false -> b < a.
Proof.
  intros H. apply Qnot_le_lt. intros Hle.
  apply Qle_bool_iff in Hle. congruence.
Qed.

Lemma Qgtb_true (a b : Q) : Qgtb a b = true <-> b < a.
Proof.
  unfold Qgtb. split.
  - intros H. apply negb_true_iff in H. now apply Qle_bool_false.
  - intros H. apply negb_true_iff.
    destruct (Qle_bool a b) eqn:E; [| reflexivity].
    apply Qle_bool_iff in E. lra.
Qed.

Lemma Qgtb_false (a b : Q) : Qgtb a b = false <-> a <= b.
Proof.
  unfold Qgtb. rewrite negb_false_iff. apply Qle_bool_iff.
Qed.

Lemma Qltb_true (a b : Q) : Qltb a b = true <-> a < b.
Proof. apply (Qgtb_true b a). Qed.

Lemma Qltb_false (a b : Q) : Qltb a b = false <-> b <= a.
Proof. apply (Qgtb_false b a). Qed.

(** Case analysis on every float comparison in the goal, leaving the
    corresponding order facts as hypotheses. *)
Ltac qcases :=
  repeat match goal with
  | |- context [Qgtb ?a ?b] =>
    let E := fresh "E" in
    destruct (Qgtb a b) eqn:E;
    [apply Qgtb_true in E | apply Qgtb_false in E]
  | |- context [Qltb ?a ?b] =>
    let E := fresh "E" in
    destruct (Qltb a b) eqn:E;
    [apply Qltb_true in E | apply Qltb_false in E]
  | |- context [Qle_bool ?a ?b] =>
    let E := fresh "E" in
    destruct (Qle_bool a b) eqn:E;
    [apply Qle_bool_iff in E | apply Qle_bool_false in E]
  end.


Lemma py_min_Qmin (a b : Q) : py_min a b == Qmin a b.
Proof.
  unfold py_min. destruct (Q.min_spec a b) as [[? ->] | [? ->]]; qcases; lra.
Qed.

(** [min(hi, max(0, x))] lands in [[0, hi]] as soon as [0 <= hi]. *)
Lemma py_clamp_bounds (hi x : Q) :
  0 <= hi -> 0 <= py_min hi (py_max 0 x) <= hi.
Proof.
  intros H. unfold py_min, py_max. qcases; lra.
Qed.



Lemma np_pi_pos : 0 < np_pi.
Proof. reflexivity. Qed.

(** ** The calibrator *)

Section CalibratorFacts.
Import Calibrator.

Lemma len_app_one {A} (l : list A) (x : A) : len (l ++ [x]) = (len l + 1)%Z.
Proof. unfold len. rewrite length_app. simpl. lia. Qed.

Lemma len_nonneg {A} (l : list A) : (0 <= len l)%Z.
Proof. unfold len. lia. Qed.

Lemma update_baseline_inv self g fs :
  calibrator_inv self -> calibrator_inv (fst (update_baseline self g fs)).
Proof.
  intros (Ha & Hc & Hb). destruct fs as [f |]; simpl.
  2: { repeat split; assumption. }
  rewrite Ha.
  destruct (frame_count self + 1 >=? 30)%Z eqn:E; simpl.
  - unfold _establish_baseline; simpl. rewrite len_app_one.
    pose proof (len_nonneg (cd_face_dimensions (calibration_data self))).
    destruct (len (cd_face_dimensions (calibration_data self)) + 1 >? 0)%Z
      eqn:E'; [| lia].
    unfold calibrator_inv; simpl. rewrite len_app_one, E.
    repeat split; try assumption. lia.
  - unfold calibrator_inv; simpl. rewrite len_app_one, E.
    destruct (frame_count self >=? 30)%Z eqn:E0; [lia |].
    repeat split; try tauto. lia.
Qed.

Lemma reachable_inv self : reachable self -> calibrator_inv self.
Proof.
  induction 1 as [| self g fs _ IH].
  - unfold calibrator_inv; simpl. repeat split.
  - now apply update_baseline_inv.
Qed.

Lemma reachable_run self frames :
  reachable self -> reachable (fst (run_updates self frames)).
Proof.
  revert self. induction frames as [| [g fs] rest IH]; intros self H; simpl.
  - exact H.
  - pose proof (reach_update self g fs H) as H1.
    destruct (update_baseline self g fs) as [self1 b]. simpl in H1.
    specialize (IH self1 H1).
    destruct (run_updates self1 rest) as [self2 bs]. exact IH.
Qed.

Lemma calibrated_iff_count self :
  calibrator_inv self ->
  is_calibrated self = true <-> (30 <= frame_count self)%Z.
Proof.
  intros (_ & _ & Hb). unfold is_calibrated.
  destruct (frame_count self >=? 30)%Z eqn:E.
  - destruct Hb as (-> & -> & ->). split; [lia | reflexivity].
  - destruct Hb as (H1 & _). rewrite H1. split; [discriminate | lia].
Qed.


Lemma update_baseline_frame_count self g fs :
  frame_count (fst (update_baseline self g fs)) =
  (frame_count self + match fs with Some _ => 1 | None => 0 end)%Z.
Proof.
  destruct fs as [f |]; simpl; [| lia].
  destruct (frame_count self + 1 >=? adaptation_frames self)%Z; simpl;
    [| reflexivity].
  unfold _establish_baseline; simpl.
  now destruct (len _ >? 0)%Z.
Qed.

Lemma update_baseline_adaptation_frames self g fs :
  adaptation_frames (fst (update_baseline self g fs)) = adaptation_frames self.
Proof.
  destruct fs as [f |]; simpl; [| reflexivity].
  destruct (frame_count self + 1 >=? adaptation_frames self)%Z; simpl;
    [| reflexivity].
  unfold _establish_baseline; simpl.
  now destruct (len _ >? 0)%Z.
Qed.

(** The returned bool: a structure was given and the counter, once
    incremented, is at the adaptation threshold or beyond. *)
Lemma update_baseline_returns self g fs :
  snd (update_baseline self g fs) = true <->
  (exists f, fs = Some f) /\
  (adaptation_frames self <= frame_count self + 1)%Z.
Proof.
  destruct fs as [f |]; simpl.
  - destruct (frame_count self + 1 >=? adaptation_frames self)%Z eqn:E; simpl.
    + split; [intros _; split; [now exists f | lia] | reflexivity].
    + split; [discriminate | intros [_ H]; lia].
  - split; [discriminate | intros [[f H] _]; discriminate].
Qed.

Lemma accepted_cons g fs frames :
  accepted ((g, fs) :: frames) =
  (match fs with Some _ => 1 | None => 0 end + accepted frames)%Z.
Proof.
  unfold accepted, len. destruct fs; cbn [filter snd List.length]; lia.
Qed.

Lemma accepted_nonneg frames : (0 <= accepted frames)%Z.
Proof. apply len_nonneg. Qed.

Lemma run_updates_returns frames : forall self k,
  nth k (snd (run_updates self frames)) false = true <->
  (exists g f, nth_error frames k = Some (g, Some f)) /\
  (adaptation_frames self <=
   frame_count self + accepted (firstn (S k) frames))%Z.
Proof.
  induction frames as [| [g fs] rest IH]; intros self k.
  - simpl. split.
    + destruct k; discriminate.
    + intros [(g & f & H) _]. destruct k; discriminate.
  - simpl run_updates.
    pose proof (update_baseline_returns self g fs) as Hr.
    pose proof (update_baseline_frame_count self g fs) as Hc.
    pose proof (update_baseline_adaptation_frames self g fs) as Ha.
    destruct (update_baseline self g fs) as [self1 b].
    cbn [fst snd] in Hr, Hc, Ha. specialize (IH self1).
    destruct (run_updates self1 rest) as [self2 bs]. cbn [snd] in IH.
    change (firstn (S k) ((g, fs) :: rest))
      with ((g, fs) :: firstn k rest).
    rewrite accepted_cons.
    destruct k as [| k]; simpl nth; simpl nth_error.
    + simpl firstn. change (accepted []) with 0%Z. rewrite Hr. split.
      * intros [[f ->] H]. split; [now exists g, f | lia].
      * intros [(g' & f & H) H']. injection H as _ ->.
        split; [now exists f | lia].
    + rewrite IH, Hc, Ha. split; intros [H H']; (split; [exact H | lia]).
Qed.

End CalibratorFacts.

Section CalibratorClaims.
Import Calibrator.

Lemma calibrated_30_reachable : reachable calibrated_30.
Proof. apply reachable_run, reach_init. Qed.

(** The session at its 30th frame, and one frame later with a wider face:
    the call returns true again and the face-width baseline moves. *)
Example thirty_first_call :
  frame_count calibrated_30 = 30%Z /\
  is_calibrated calibrated_30 = true /\
  option_map (fun b => Qred (fb_width b)) (face_baseline calibrated_30)
  = Some 100 /\
  snd (update_baseline calibrated_30 sample_gaze (Some (sample_face 200)))
  = true /\
  option_map (fun b => Qred (fb_width b))
    (face_baseline
       (fst (update_baseline calibrated_30 sample_gaze
               (Some (sample_face 200)))))
  = Some (3200 # 31).
Proof. vm_compute. repeat split. Qed.

(** C2, as stated, fails: after the 30th frame a call with a face of another
    width changes the stored face baseline. *)
Lemma baseline_rederived_after_calibration :
  ~ (forall self g fs,
       reachable self -> is_calibrated self = true ->
       face_baseline (fst (update_baseline self g fs)) = face_baseline self /\
       eye_baseline (fst (update_baseline self g fs)) = eye_baseline self /\
       head_pose_baseline (fst (update_baseline self g fs)) =
         head_pose_baseline self).
Proof.
  intros H.
  destruct (H calibrated_30 sample_gaze (Some (sample_face 200))
              calibrated_30_reachable eq_refl) as [Hf _].
  apply (f_equal (fun o => match o with
                           | Some b => Qnum (Qred (fb_width b))
                           | None => 0%Z
                           end)) in Hf.
  vm_compute in Hf. discriminate.
Qed.

(** C2, amended: once calibrated, the calibrator stays calibrated, and after
    every [update_baseline] call the three stored baselines are the mean and
    population standard deviation of the whole accumulator; a call without a
    facial structure changes nothing, and a call with one appends its sample
    to the accumulator, so the baselines are re-derived with it. *)
Theorem baselines_track_accumulator self g fs :
  reachable self -> is_calibrated self = true ->
  let self' := fst (update_baseline self g fs) in
  is_calibrated self' = true /\
  face_baseline self' =
    Some (face_stats (cd_face_dimensions (calibration_data self'))) /\
  eye_baseline self' =
    Some (eye_stats (cd_eye_distances (calibration_data self'))) /\
  head_pose_baseline self' =
    Some (head_pose_stats (cd_head_poses (calibration_data self'))) /\
  match fs with
  | None => self' = self
  | Some f =>
    cd_face_dimensions (calibration_data self') =
      cd_face_dimensions (calibration_data self) ++ [face_dimensions f] /\
    cd_eye_distances (calibration_data self') =
      cd_eye_distances (calibration_data self) ++ [eye_distance f] /\
    cd_head_poses (calibration_data self') =
      cd_head_poses (calibration_data self)
      ++ [(get (gd_yaw g) 0, get (gd_pitch g) 0)]
  end.
Proof.
  intros Hr Hc self'.
  pose proof (reachable_inv _ Hr) as Hi.
  pose proof (reachable_inv _ (reach_update self g fs Hr)) as Hi'.
  fold self' in Hi'.
  apply (calibrated_iff_count _ Hi) in Hc.
  assert (Hc' : (30 <= frame_count self')%Z).
  { unfold self'. rewrite update_baseline_frame_count. destruct fs; lia. }
  split; [now apply (calibrated_iff_count _ Hi') |].
  destruct Hi' as (_ & _ & Hb).
  destruct (frame_count self' >=? 30)%Z eqn:E; [| lia].
  destruct Hb as (Hf & He & Hh).
  repeat (split; [assumption |]).
  unfold self'. destruct fs as [f |]; simpl; [| reflexivity].
  destruct (frame_count self + 1 >=? adaptation_frames self)%Z; simpl.
  - unfold _establish_baseline; simpl.
    destruct (len _ >? 0)%Z; simpl; repeat split.
  - repeat split.
Qed.

Lemma baselines_track_accumulator_witness :
  is_calibrated calibrated_30 = true /\
  is_calibrated
    (fst (update_baseline calibrated_30 sample_gaze (Some (sample_face 200))))
  = true.
Proof.
  split; [reflexivity |].
  exact (proj1 (baselines_track_accumulator calibrated_30 sample_gaze
                  (Some (sample_face 200)) calibrated_30_reachable eq_refl)).
Defined.

(** C6, as stated, fails: the call after the 30th accepted frame returns
    true again, although the counter reached 30 one call earlier. *)
Lemma update_baseline_true_after_30th :
  ~ (forall frames k,
       (k < List.length frames)%nat ->
       nth k (snd (run_updates init frames)) false = true <->
       (exists g f, nth_error frames k = Some (g, Some f)) /\
       accepted (firstn (S k) frames) = 30%Z).
Proof.
  intros H.
  specialize (H (thirty_frames ++ [(sample_gaze, Some (sample_face 100))])
                30%nat).
  destruct H as [H _]; [simpl; lia |].
  assert (Ht : nth 30
                 (snd (run_updates init
                         (thirty_frames
                          ++ [(sample_gaze, Some (sample_face 100))])))
                 false = true) by (vm_compute; reflexivity).
  destruct (H Ht) as [_ Hc]. vm_compute in Hc. discriminate.
Qed.

(** C6, amended: in a session, [update_baseline] returns true exactly on the
    calls that carry a facial structure and bring the accumulated-frame
    counter to 30 or more, that is on the 30th accepted frame and on every
    accepted frame after it; it returns false on every other call. *)
Theorem update_baseline_true_from_30th frames k :
  nth k (snd (run_updates init frames)) false = true <->
  (exists g f, nth_error frames k = Some (g, Some f)) /\
  (30 <= accepted (firstn (S k) frames))%Z.
Proof.
  rewrite run_updates_returns. simpl. reflexivity.
Qed.



End CalibratorClaims.

(** ** The detector *)

Section DetectorFacts.
Import Config Detector.

(** *** What each helper touches *)

Lemma head_movement_state self yaw pitch :
  snd (_calculate_head_movement self yaw pitch) =
  set_head_movement_history
    (deque_append 50 (head_movement_history self) (yaw, pitch)) self.
Proof.
  unfold _calculate_head_movement.
  now destruct (len _ <? 2)%Z.
Qed.

Lemma suspicion_increase_config s s' away d v yaw pitch :
  config s = config s' ->
  _calculate_suspicion_increase s away d v yaw pitch =
  _calculate_suspicion_increase s' away d v yaw pitch.
Proof.
  intros H. unfold _calculate_suspicion_increase. now rewrite H.
Qed.

(** Attentive frames earn the recovery rate, whatever the head velocity. *)
Lemma suspicion_increase_attentive s d v yaw pitch :
  _calculate_suspicion_increase s false d v yaw pitch =
  RECOVERY_RATE (config s).
Proof. reflexivity. Qed.

(** [_determine_alert_level] assigns only to [last_alert_time],
    [alert_active] and [cheating_alerts]. *)
Lemma determine_frame self d now clk :
  let s' := snd (_determine_alert_level self d now clk) in
  config s' = config self /\
  suspicion_score s' = suspicion_score self /\
  total_looking_away_time s' = total_looking_away_time self /\
  looking_away_start s' = looking_away_start self /\
  repeated_patterns s' = repeated_patterns self /\
  head_movement_history s' = head_movement_history self /\
  session_start_time s' = session_start_time self.
Proof.
  unfold _determine_alert_level.
  repeat match goal with
  | |- context [if ?c then _ else _] => destruct c
  end; cbn; repeat split.
Qed.


(** A call that passes the input guard: the state [s1] on which the alert
    level is determined differs from [self] in the timers, the history, the
    pattern counters and the clamped score only. *)
Lemma analyze_valid self cg f ts clk :
  Qltb (Calibrator.confidence cg) 0.3 = false ->
  let yaw := Calibrator.calibrated_yaw cg in
  let pitch := Calibrator.calibrated_pitch cg in
  let away := _is_looking_away self yaw pitch in
  exists d v s1,
    analyze_gaze_behavior self (Some cg) (Some f) ts clk =
      (let '(alert_level, s2) :=
         _determine_alert_level s1 d (time_time clk) clk in
       (_create_detection_result s2 away alert_level (time_time clk)
          (Some {| x_looking_away_duration := d;
                   x_total_away_time := total_looking_away_time s2;
                   x_suspicion_score := suspicion_score s2;
                   x_head_movement_velocity := v;
                   x_yaw := yaw;
                   x_pitch := pitch;
                   x_confidence := Calibrator.confidence cg |}),
        s2)) /\
    config s1 = config self /\
    cheating_alerts s1 = cheating_alerts self /\
    last_alert_time s1 = last_alert_time self /\
    alert_active s1 = alert_active self /\
    session_start_time s1 = session_start_time self /\
    suspicion_score s1 =
      py_min (MAX_SUSPICION_SCORE (config self))
        (py_max 0 (suspicion_score self
                   + _calculate_suspicion_increase self away d v yaw pitch)).
Proof.
  intros Hc yaw pitch away. unfold analyze_gaze_behavior. rewrite Hc.
  fold yaw pitch away.
  destruct away eqn:Ea; destruct (looking_away_start self) as [t0 |] eqn:Es;
    cbv zeta;
    match goal with
    | |- context [_calculate_head_movement ?s ?y ?p] =>
      pose proof (head_movement_state s y p) as Hh;
      destruct (_calculate_head_movement s y p) as [v s'];
      cbn [snd] in Hh; subst s'
    end;
    (eexists _, v, _; split; [reflexivity |]);
    cbn; repeat split.
Qed.

(** Every call either is rejected by the input guard, and then changes
    nothing, or passes it with both inputs present. *)
Lemma analyze_guard self cg fs ts clk :
  match guard_message cg fs with
  | Some msg =>
    analyze_gaze_behavior self cg fs ts clk =
    (_create_detection_result self false msg (time_time clk) None, self)
  | None =>
    exists g f, cg = Some g /\ fs = Some f /\
                Qltb (Calibrator.confidence g) 0.3 = false
  end.
Proof.
  unfold guard_message, analyze_gaze_behavior.
  destruct cg as [g |], fs as [f |]; try reflexivity.
  destruct (Qltb (Calibrator.confidence g) 0.3) eqn:E; [reflexivity |].
  now exists g, f.
Qed.

(** [analyze_gaze_behavior] never assigns to the configuration or to
    [session_start_time]; the score it returns is the stored one. *)
Lemma analyze_frame self cg fs ts clk :
  let '(r, s') := analyze_gaze_behavior self cg fs ts clk in
  config s' = config self /\
  session_start_time s' = session_start_time self /\
  r_suspicion_score r = suspicion_score s' /\
  r_timestamp r = time_time clk /\
  (suspicion_score s' = suspicion_score self \/
   exists x, suspicion_score s' =
             py_min (MAX_SUSPICION_SCORE (config self)) (py_max 0 x)).
Proof.
  pose proof (analyze_guard self cg fs ts clk) as Hg.
  destruct (guard_message cg fs) as [msg |].
  - rewrite Hg. cbn. repeat split. now left.
  - destruct Hg as (g & f & -> & -> & Hc).
    destruct (analyze_valid self g f ts clk Hc)
      as (d & v & s1 & -> & Hcfg & _ & _ & _ & Hst & Hsc).
    pose proof (determine_frame s1 d (time_time clk) clk) as Hd.
    destruct (_determine_alert_level s1 d (time_time clk) clk) as [lvl s2].
    cbn [snd] in Hd. destruct Hd as (Hc2 & Hs2 & _ & _ & _ & _ & Ht2).
    cbn. repeat split; try congruence.
    right. eexists. rewrite Hs2. exact Hsc.
Qed.

(** *** Reachable states *)

Lemma reachable_config self :
  reachable self ->
  exists a b c d e, config self = set_mode Config.initial a b c d e.
Proof.
  induction 1 as [clk | self cg fs ts clk _ IH | self _ IH | self mode _ IH].
  - now exists 3.0, 5.0, 10%Z, 8%Z, 70.
  - pose proof (analyze_frame self cg fs ts clk) as Hf.
    destruct (analyze_gaze_behavior self cg fs ts clk) as [r s'].
    destruct Hf as (Hc & _). cbn [snd]. rewrite Hc. exact IH.
  - exact IH.
  - destruct IH as (a & b & c & d & e & IH).
    unfold set_detection_mode.
    destruct (String.eqb mode "strict"); [| destruct (String.eqb mode "lenient")];
      cbn; rewrite IH; do 5 eexists; reflexivity.
Qed.

Lemma reachable_constants self :
  reachable self ->
  MAX_SUSPICION_SCORE (config self) = 100 /\
  RECOVERY_RATE (config self) = -0.2 /\
  ALERT_COOLDOWN (config self) = 10 /\
  DOWNWARD_GAZE_ANGLE (config self) = 0.3 /\
  SIDE_GAZE_ANGLE (config self) = 0.5 /\
  HEAD_MOVEMENT_THRESHOLD (config self) = 0.4.
Proof.
  intros H. destruct (reachable_config self H) as (a & b & c & d & e & ->).
  repeat split.
Qed.

Lemma reachable_score self :
  reachable self ->
  0 <= suspicion_score self <= MAX_SUSPICION_SCORE (config self).
Proof.
  intros H. pose proof (reachable_constants self H) as (HM & _).
  rewrite HM. clear HM.
  induction H as [clk | self cg fs ts clk H IH | self _ IH | self mode _ IH].
  - cbn. lra.
  - pose proof (reachable_constants self H) as (HM & _).
    pose proof (analyze_frame self cg fs ts clk) as Hf.
    destruct (analyze_gaze_behavior self cg fs ts clk) as [r s'].
    cbn [snd].
    destruct Hf as (_ & _ & _ & _ & [-> | [x ->]]); [exact IH |].
    rewrite HM. apply py_clamp_bounds. lra.
  - exact IH.
  - unfold set_detection_mode.
    destruct (String.eqb mode "strict"); [| destruct (String.eqb mode "lenient")];
      exact IH.
Qed.

Lemma reachable_step self f :
  reachable self -> reachable (snd (step self f)).
Proof. intros H. now apply reach_analyze. Qed.

Lemma reachable_run_frames frames : forall self,
  reachable self -> reachable (snd (run self frames)).
Proof.
  induction frames as [| f rest IH]; intros self H; [exact H |].
  simpl. pose proof (reachable_step self f H) as H1.
  destruct (step self f) as [r s1]. specialize (IH s1 H1).
  now destruct (run s1 rest).
Qed.

(** *** Cooldown *)





(** *** Recovery *)


End DetectorFacts.

Section DetectorClaims.
Import Config Detector.

Lemma fresh_reachable : reachable fresh.
Proof. apply reach_init. Qed.

Lemma alerted_reachable : reachable alerted.
Proof. apply reachable_run_frames, fresh_reachable. Qed.

(** The sample session: looking down for six seconds raises the level to
    SUSPICIOUS_BEHAVIOR after three and fires an alert after five. *)
Example looking_down_session :
  map r_alert_level (fst (run fresh looking_down_frames))
  = ["NO_ALERT"; "NO_ALERT"; "NO_ALERT"; "NO_ALERT"; "SUSPICIOUS_BEHAVIOR";
     "SUSPICIOUS_BEHAVIOR"; "CHEATING_DETECTED"]%string /\
  map a_reason (cheating_alerts alerted) = ["PROLONGED_DISTRACTION"%string] /\
  last_alert_time alerted = 1006 /\
  alert_active alerted = true /\
  snd (step before_alert (frame_at 1006 0 0.5 0.9)) = alerted.
Proof. vm_compute. repeat split. Qed.

(** One second into the cooldown: a call that passes the guard and one that
    does not. *)
Example calls_in_cooldown :
  r_alert_level (fst (step alerted (frame_at 1007 0 0.5 0.9)))
  = "ONGOING_ALERT"%string /\
  r_alert_level (fst (step alerted (frame_at 1007 0 0.5 0.1)))
  = "Low confidence gaze data"%string /\
  snd (step alerted (frame_at 1007 0 0.5 0.1)) = alerted.
Proof. vm_compute. repeat split. Qed.

(** Two summaries of the fresh detector, one second apart. *)
Example summaries_one_second_apart :
  Qred (session_duration (get_session_summary fresh (clock_at 1001))) = 1 /\
  Qred (session_duration (get_session_summary fresh (clock_at 1002))) = 2.
Proof. vm_compute. repeat split. Qed.

(** C1: from every reachable detector state, whatever the arguments of
    [analyze_gaze_behavior], the stored suspicion score after the call, which
    is also the score in the returned result, lies between 0 and
    MAX_SUSPICION_SCORE. *)
Theorem suspicion_score_bounded self cg fs ts clk :
  reachable self ->
  let '(r, self') := analyze_gaze_behavior self cg fs ts clk in
  0 <= suspicion_score self' <= MAX_SUSPICION_SCORE (config self') /\
  r_suspicion_score r = suspicion_score self'.
Proof.
  intros H.
  pose proof (reachable_score _ (reach_analyze self cg fs ts clk H)) as Hb.
  pose proof (analyze_frame self cg fs ts clk) as Hf.
  destruct (analyze_gaze_behavior self cg fs ts clk) as [r s'].
  cbn [snd] in Hb. split; [exact Hb | apply Hf].
Qed.

Lemma suspicion_score_bounded_witness :
  0 <= suspicion_score
         (snd (analyze_gaze_behavior alerted (Some (gaze_of 1 0.5 0.9))
                 (Some (Calibrator.sample_face 100)) 0 (clock_at 1007)))
    <= 100.
Proof.
  pose proof (suspicion_score_bounded alerted (Some (gaze_of 1 0.5 0.9))
                (Some (Calibrator.sample_face 100)) 0 (clock_at 1007)
                alerted_reachable) as H.
  destruct (analyze_gaze_behavior alerted (Some (gaze_of 1 0.5 0.9))
              (Some (Calibrator.sample_face 100)) 0 (clock_at 1007))
    as [r s'] eqn:E.
  destruct H as [H _].
  replace (MAX_SUSPICION_SCORE (config s')) with 100 in H; [exact H |].
  apply (f_equal (fun p => MAX_SUSPICION_SCORE (config (snd p)))) in E.
  cbn [snd] in E. rewrite <- E. reflexivity.
Defined.

(** C3, as stated, fails: a call without gaze data returns the string
    "No gaze data" in the alert-level slot, not NO_ALERT. *)
Lemma guard_level_is_not_NO_ALERT :
  ~ (forall self cg fs ts clk,
       (cg = None \/ fs = None \/
        exists g, cg = Some g /\ Calibrator.confidence g < 0.3) ->
       r_alert_level (fst (analyze_gaze_behavior self cg fs ts clk))
       = "NO_ALERT"%string /\
       snd (analyze_gaze_behavior self cg fs ts clk) = self).
Proof.
  intros H.
  destruct (H fresh None None 0 (clock_at 1001)) as [Hl _];
    [now left | discriminate Hl].
Qed.

(** C3, amended: when the calibrated gaze or the facial structure is absent,
    or the confidence is below 0.3, the call leaves the whole detector state
    unchanged and returns a result that reports no looking away, carries the
    stored score and alert count, and whose alert level is the message
    "No gaze data" (an absent input) or "Low confidence gaze data". *)
Theorem guard_preserves_state self cg fs ts clk :
  (cg = None \/ fs = None \/
   exists g, cg = Some g /\ Calibrator.confidence g < 0.3) ->
  let '(r, self') := analyze_gaze_behavior self cg fs ts clk in
  self' = self /\
  r_alert_level r =
    match cg, fs with
    | Some _, Some _ => "Low confidence gaze data"%string
    | _, _ => "No gaze data"%string
    end /\
  r_is_looking_away r = false /\
  r_suspicion_score r = suspicion_score self /\
  r_total_alerts r = len (cheating_alerts self) /\
  r_extra r = None.
Proof.
  intros H. unfold analyze_gaze_behavior.
  destruct cg as [g |], fs as [f |]; try (cbn; now repeat split).
  destruct H as [H | [H | (g' & H & Hc)]]; try discriminate.
  injection H as <-. apply Qltb_true in Hc. rewrite Hc.
  cbn. now repeat split.
Qed.

Lemma guard_preserves_state_witness :
  Calibrator.confidence (gaze_of 0 0.5 0.1) < 0.3 /\
  snd (analyze_gaze_behavior alerted (Some (gaze_of 0 0.5 0.1))
         (Some (Calibrator.sample_face 100)) 0 (clock_at 1007)) = alerted.
Proof.
  split; [reflexivity |].
  pose proof (guard_preserves_state alerted (Some (gaze_of 0 0.5 0.1))
                (Some (Calibrator.sample_face 100)) 0 (clock_at 1007)) as H.
  destruct (analyze_gaze_behavior alerted (Some (gaze_of 0 0.5 0.1))
              (Some (Calibrator.sample_face 100)) 0 (clock_at 1007))
    as [r s'].
  apply H. right; right. exists (gaze_of 0 0.5 0.1).
  split; reflexivity.
Defined.

(** C4, as stated, fails: with a head velocity of 1 (above the 0.4
    threshold) on an attentive frame, the delta is the recovery rate alone,
    not the recovery rate plus HEAD_MOVEMENT_PENALTY. *)
Lemma head_penalty_dropped_when_attentive :
  ~ (forall self away d v yaw pitch,
       _calculate_suspicion_increase self away d v yaw pitch ==
       spec_suspicion_delta (config self) away d v yaw pitch).
Proof.
  intros H. specialize (H fresh false 0 1 0 (-0.5)).
  vm_compute in H. discriminate.
Qed.

(** The same on a whole call: after one frame looking down, a frame looking
    up by one radian is attentive with head velocity 1, and the score goes
    from 1.5 to 1.3. *)
Example attentive_fast_head_turn :
  map (fun r => (r_is_looking_away r, Qred (r_suspicion_score r),
                 option_map (fun e => Qred (x_head_movement_velocity e))
                   (r_extra r)))
      (fst (run fresh [frame_at 1000 0 0.5 0.9; frame_at 1001 0 (-0.5) 0.9]))
  = [(true, 3 # 2, Some 0); (false, 13 # 10, Some 1)].
Proof. vm_compute. reflexivity. Qed.

(** C4, amended: while the subject is looking away the delta is the sum of
    the away penalties plus HEAD_MOVEMENT_PENALTY when the head velocity
    exceeds HEAD_MOVEMENT_THRESHOLD, all multiplied by DURATION_MULTIPLIER
    when the away duration exceeds SUSPICIOUS_GAZE_THRESHOLD; while the
    subject is not looking away the delta is RECOVERY_RATE, whatever the
    head velocity. *)
Theorem head_penalty_applies_when_away self d v yaw pitch :
  _calculate_suspicion_increase self true d v yaw pitch ==
    spec_suspicion_delta (config self) true d v yaw pitch /\
  _calculate_suspicion_increase self false d v yaw pitch =
    RECOVERY_RATE (config self).
Proof.
  split; [| reflexivity].
  unfold _calculate_suspicion_increase, spec_suspicion_delta. cbn.
  qcases; ring.
Qed.

(** C9, as stated, fails: two summaries of the same detector, taken one
    second apart, differ in [session_duration]. *)
Lemma session_summary_depends_on_clock :
  ~ (forall self clk1 clk2,
       get_session_summary self clk1 = get_session_summary self clk2).
Proof.
  intros H. specialize (H fresh (clock_at 1001) (clock_at 1002)).
  apply (f_equal (fun s => Qnum (Qred (session_duration s)))) in H.
  vm_compute in H. discriminate.
Qed.

(** After an away episode of three seconds, two summaries taken two
    seconds apart differ in [away_time_percentage] as well: 75 and 50. *)
Example percentages_two_seconds_apart :
  let self :=
    snd (run fresh [frame_at 1000 0 0.5 0.9; frame_at 1003 0 0 0.9]) in
  Qred (total_looking_away_time self) = 3 /\
  Qred (away_time_percentage (get_session_summary self (clock_at 1004)))
  = 75 /\
  Qred (away_time_percentage (get_session_summary self (clock_at 1006)))
  = 50.
Proof. vm_compute. repeat split. Qed.

(** C9, amended: two summaries of the same detector agree on the alert
    count, the away time, the score, the pattern counters, the alert log and
    the behavior analysis.  [session_duration] is re-derived at each call as
    the clock reading minus the session start, so the two durations differ
    by exactly the advance of the clock, and differ whenever the clock has
    advanced.  [away_time_percentage] is recomputed from it at each call, as
    the away time over the duration times 100 when the duration is positive
    and 0 otherwise; it is 0 in both summaries when the away time is 0.  The
    whole summary is the same when the clock reads the same. *)
Theorem session_summary_stable self clk1 clk2 :
  let a := get_session_summary self clk1 in
  let b := get_session_summary self clk2 in
  total_alerts a = total_alerts b /\
  s_total_looking_away_time a = s_total_looking_away_time b /\
  final_suspicion_score a = final_suspicion_score b /\
  s_repeated_patterns a = s_repeated_patterns b /\
  alerts a = alerts b /\
  behavior_analysis a = behavior_analysis b /\
  session_duration a = time_time clk1 - session_start_time self /\
  session_duration b = time_time clk2 - session_start_time self /\
  get_session_summary self
    {| time_time := time_time clk1; datetime_now := datetime_now clk2 |} = a /\
  session_duration b - session_duration a ==
    time_time clk2 - time_time clk1 /\
  (time_time clk1 < time_time clk2 ->
   ~ session_duration a == session_duration b) /\
  away_time_percentage a =
    (if Qgtb (session_duration a) 0
     then (total_looking_away_time self / session_duration a) * 100
     else 0) /\
  away_time_percentage b =
    (if Qgtb (session_duration b) 0
     then (total_looking_away_time self / session_duration b) * 100
     else 0) /\
  (total_looking_away_time self == 0 ->
   away_time_percentage a == 0 /\ away_time_percentage b == 0) /\
  (time_time clk1 = time_time clk2 -> a = b).
Proof.
  cbv zeta. unfold get_session_summary.
  cbn [total_alerts s_total_looking_away_time final_suspicion_score
       s_repeated_patterns alerts behavior_analysis session_duration
       away_time_percentage time_time].
  do 9 (split; [reflexivity |]).
  split; [ring |].
  split; [intros Hlt He; lra |].
  do 2 (split; [reflexivity |]).
  split.
  - intros Hz.
    assert (Hq : forall d, total_looking_away_time self / d * 100 == 0).
    { intros d. rewrite Hz. unfold Qdiv. ring. }
    split; destruct (Qgtb _ 0); try reflexivity; apply Hq.
  - intros ->. reflexivity.
Qed.

(** C10: [frame_timestamp] is never read: two calls that differ in it only
    return the same result and leave the same detector state; the timestamp
    in the result is the clock reading. *)
Theorem frame_timestamp_ignored self cg fs ts1 ts2 clk :
  analyze_gaze_behavior self cg fs ts1 clk =
  analyze_gaze_behavior self cg fs ts2 clk /\
  r_timestamp (fst (analyze_gaze_behavior self cg fs ts1 clk)) =
  time_time clk.
Proof.
  split; [reflexivity |].
  pose proof (analyze_frame self cg fs ts1 clk) as H.
  destruct (analyze_gaze_behavior self cg fs ts1 clk) as [r s'].
  apply H.
Qed.

Lemma before_alert_reachable : reachable before_alert.
Proof. apply reachable_run_frames, fresh_reachable. Qed.




Lemma len_cons_Q {A} (x : A) (l : list A) :
  inject_Z (len (x :: l)) == inject_Z (len l) + 1.
Proof.
  unfold len. cbn [List.length]. rewrite Nat2Z.inj_succ, <- Z.add_1_r.
  now rewrite inject_Z_plus.
Qed.




End DetectorClaims.

(** * Further properties *)

(** ** The calibrator: sessions, confidence *)

Section CalibratorSessions.
Import Calibrator.

Lemma run_updates_frame_count frames : forall self,
  frame_count (fst (run_updates self frames)) =
  (frame_count self + accepted frames)%Z.
Proof.
  induction frames as [| [g fs] rest IH]; intros self.
  - cbn. unfold accepted, len. cbn. lia.
  - simpl run_updates. rewrite accepted_cons.
    pose proof (update_baseline_frame_count self g fs) as Hc.
    destruct (update_baseline self g fs) as [self1 b]. cbn [fst] in Hc.
    specialize (IH self1).
    destruct (run_updates self1 rest) as [self2 bs]. cbn [fst] in *.
    rewrite IH, Hc. lia.
Qed.

Lemma prediction_none_iff self g f :
  calibrated_gaze_prediction self g f = None <-> is_calibrated self = false.
Proof.
  unfold calibrated_gaze_prediction, _calculate_confidence, is_calibrated.
  destruct (face_baseline self), (eye_baseline self),
    (head_pose_baseline self); cbn; split; intros H;
    try reflexivity; try discriminate.
Qed.

(** In a session the calibrator is calibrated, and predictions are
    available, exactly from the 30th frame that carried a facial structure
    on; before it every prediction is absent. *)
Theorem prediction_available_from_30th frames g f :
  let self := fst (run_updates init frames) in
  (is_calibrated self = true <-> (30 <= accepted frames)%Z) /\
  (calibrated_gaze_prediction self g f = None <-> (accepted frames < 30)%Z).
Proof.
  intros self.
  assert (Hi : calibrator_inv self)
    by (apply reachable_inv, reachable_run, reach_init).
  pose proof (calibrated_iff_count self Hi) as Hc.
  assert (Hn : frame_count self = accepted frames).
  { unfold self. rewrite run_updates_frame_count. cbn. lia. }
  rewrite Hn in Hc. split; [exact Hc |].
  rewrite prediction_none_iff.
  destruct (is_calibrated self); split; intros H; try discriminate;
    try reflexivity.
  - destruct Hc as [Hc _]. specialize (Hc eq_refl). lia.
  - destruct (Z_lt_le_dec (accepted frames) 30) as [Hl | Hl]; [exact Hl |].
    destruct Hc as [_ Hc]. specialize (Hc Hl). discriminate.
Qed.

(** In every state of a session the three accumulators have as many entries
    as frames were counted, and nothing is ever written to
    [pupil_positions]. *)
Theorem accumulators_in_step self :
  reachable self ->
  let cd := calibration_data self in
  len (cd_face_dimensions cd) = frame_count self /\
  len (cd_eye_distances cd) = frame_count self /\
  len (cd_head_poses cd) = frame_count self /\
  cd_pupil_positions cd = [] /\
  adaptation_frames self = 30%Z.
Proof.
  induction 1 as [| self g fs _ IH]; [cbn; repeat split |].
  cbv zeta in *. destruct IH as (H1 & H2 & H3 & H4 & H5).
  destruct fs as [f |]; cbn; [| repeat split; assumption].
  destruct (frame_count self + 1 >=? adaptation_frames self)%Z; cbn.
  - unfold _establish_baseline; cbn.
    destruct (len _ >? 0)%Z; cbn; rewrite ?len_app_one;
      repeat split; try assumption; lia.
  - rewrite ?len_app_one. repeat split; try assumption; lia.
Qed.

Lemma accumulators_in_step_witness :
  len (cd_head_poses (calibration_data calibrated_30)) = 30%Z.
Proof.
  destruct (accumulators_in_step calibrated_30 calibrated_30_reachable)
    as (_ & _ & H & _).
  rewrite H. reflexivity.
Defined.

Lemma py_min_one_unit (x : Q) : 0 <= x -> 0 <= 1 - py_min 1 x <= 1.
Proof. intros H. unfold py_min. qcases; lra. Qed.

Lemma Qdiv_nonneg (x c : Q) : 0 <= x -> 0 < c -> 0 <= x / c.
Proof.
  intros Hx Hc. apply Qle_shift_div_l; [exact Hc | lra].
Qed.

Lemma Some_inj {A} (x y : A) : Some x = Some y -> x = y.
Proof. now intros [=]. Qed.

(** Whenever a prediction is returned, its confidence is between 0 and 1. *)
Theorem confidence_in_unit_interval self gd fs r :
  calibrated_gaze_prediction self gd fs = Some r ->
  0 <= confidence r <= 1.
Proof.
  unfold calibrated_gaze_prediction, _calculate_confidence.
  destruct (is_calibrated self); cbn [negb]; [| discriminate].
  destruct (head_pose_baseline self) as [hb |]; [| discriminate].
  destruct (face_baseline self) as [fb |]; [| discriminate].
  destruct (eye_baseline self) as [eb |]; [| discriminate].
  intros H. apply Some_inj in H. subst r. cbn [confidence].
  set (dw := Qabs (fst (face_dimensions fs) - fb_width fb)).
  set (dh := Qabs (snd (face_dimensions fs) - fb_height fb)).
  set (de := Qabs (eye_distance fs - eb_distance eb)).
  assert (Hw : 0 <= dw) by apply Qabs_nonneg.
  assert (Hh : 0 <= dh) by apply Qabs_nonneg.
  assert (He : 0 <= de) by apply Qabs_nonneg.
  assert (H1 : 0 <= (dw + dh) / 200) by (apply Qdiv_nonneg; lra).
  assert (H2 : 0 <= de / 50) by (apply Qdiv_nonneg; lra).
  pose proof (py_min_one_unit _ H1) as Hs.
  pose proof (py_min_one_unit _ H2) as Hy.
  set (s := 1 - py_min 1 ((dw + dh) / 200)) in *.
  set (y := 1 - py_min 1 (de / 50)) in *.
  split.
  - apply Qle_shift_div_l; lra.
  - apply Qle_shift_div_r; lra.
Qed.

Lemma confidence_in_unit_interval_witness :
  exists r,
    calibrated_gaze_prediction calibrated_30 sample_gaze (sample_face 130)
    = Some r /\ 0 <= confidence r <= 1.
Proof.
  assert (Hc : is_calibrated calibrated_30 = true) by reflexivity.
  destruct (calibrated_gaze_prediction calibrated_30 sample_gaze
              (sample_face 130)) as [r |] eqn:E.
  - exists r. split; [reflexivity |].
    exact (confidence_in_unit_interval _ _ _ _ E).
  - apply prediction_none_iff in E. congruence.
Defined.

Lemma Qabs_diff_zero (a b : Q) : a == b -> Qabs (a - b) == 0.
Proof.
  intros H. setoid_replace (a - b) with 0 by lra. reflexivity.
Qed.

Lemma py_min_below (x : Q) : x < 1 -> py_min 1 x = x.
Proof.
  intros H. unfold py_min. apply Qltb_true in H. now rewrite H.
Qed.

Lemma py_min_above (x : Q) : 1 <= x -> py_min 1 x = 1.
Proof.
  intros H. unfold py_min. apply Qltb_false in H. now rewrite H.
Qed.

(** A frame whose face size and eye distance equal the baseline means has
    confidence 1; one that is off by 200 pixels or more in face size and by
    50 or more in eye distance has confidence 0. *)
Theorem confidence_extremes self fs fb eb :
  face_baseline self = Some fb -> eye_baseline self = Some eb ->
  exists c, _calculate_confidence self (Some fs) = Some c /\
    (fst (face_dimensions fs) == fb_width fb ->
     snd (face_dimensions fs) == fb_height fb ->
     eye_distance fs == eb_distance eb -> c == 1) /\
    (200 <= Qabs (fst (face_dimensions fs) - fb_width fb)
            + Qabs (snd (face_dimensions fs) - fb_height fb) ->
     50 <= Qabs (eye_distance fs - eb_distance eb) -> c == 0).
Proof.
  intros Hf He. unfold _calculate_confidence. rewrite Hf, He.
  eexists; split; [reflexivity |]. cbv zeta.
  set (dw := Qabs (fst (face_dimensions fs) - fb_width fb)).
  set (dh := Qabs (snd (face_dimensions fs) - fb_height fb)).
  set (de := Qabs (eye_distance fs - eb_distance eb)).
  split.
  - intros H1 H2 H3.
    apply Qabs_diff_zero in H1, H2, H3. fold dw in H1. fold dh in H2.
    fold de in H3.
    assert (H4 : (dw + dh) / 200 == 0).
    { rewrite H1, H2. reflexivity. }
    assert (H5 : de / 50 == 0).
    { rewrite H3. reflexivity. }
    rewrite (py_min_below ((dw + dh) / 200)) by lra.
    rewrite (py_min_below (de / 50)) by lra.
    rewrite H4, H5. reflexivity.
  - intros H1 H2.
    assert (H3 : 1 <= (dw + dh) / 200) by (apply Qle_shift_div_l; lra).
    assert (H4 : 1 <= de / 50) by (apply Qle_shift_div_l; lra).
    rewrite (py_min_above _ H3), (py_min_above _ H4). reflexivity.
Qed.

Lemma confidence_extremes_witness :
  exists c,
    _calculate_confidence calibrated_30 (Some (sample_face 400)) = Some c.
Proof.
  assert (Hc : is_calibrated calibrated_30 = true) by reflexivity.
  unfold is_calibrated in Hc.
  destruct (face_baseline calibrated_30) as [fb |] eqn:Ef;
    [| discriminate Hc].
  destruct (eye_baseline calibrated_30) as [eb |] eqn:Ee;
    [| discriminate Hc].
  destruct (confidence_extremes calibrated_30 (sample_face 400) fb eb Ef Ee)
    as (c & Hc' & _).
  exists c. exact Hc'.
Defined.

End CalibratorSessions.

(** ** The detector: state after a call *)

Section DetectorState.
Import Config Detector Session.

Lemma deque_append_length {A} (n : nat) (d : list A) (x : A) :
  List.length (deque_append n d x) = Nat.min (S (List.length d)) n.
Proof.
  unfold deque_append. rewrite length_skipn, !length_app.
  cbn [List.length]. lia.
Qed.

Lemma deque_append_last {A} (n : nat) (d : list A) (x dflt : A) :
  (0 < n)%nat -> last (deque_append n d x) dflt = x.
Proof.
  intros Hn. unfold deque_append.
  set (k := (List.length (d ++ [x]) - n)%nat).
  assert (Hk : (k <= List.length d)%nat).
  { unfold k. rewrite length_app. cbn. lia. }
  rewrite skipn_app.
  replace (k - List.length d)%nat with 0%nat by lia. cbn [skipn].
  apply last_last.
Qed.

(** What a call that passes the input guard leaves in the fields that
    [_determine_alert_level] does not touch. *)
Lemma analyze_valid_state self cg f ts clk :
  Qltb (Calibrator.confidence cg) 0.3 = false ->
  let yaw := Calibrator.calibrated_yaw cg in
  let pitch := Calibrator.calibrated_pitch cg in
  let now := time_time clk in
  let away := _is_looking_away self yaw pitch in
  let '(r, s') := analyze_gaze_behavior self (Some cg) (Some f) ts clk in
  r_is_looking_away r = away /\
  head_movement_history s' =
    deque_append 50 (head_movement_history self) (yaw, pitch) /\
  repeated_patterns s' =
    repeated_patterns (_update_pattern_detection self yaw pitch now) /\
  looking_away_start s' =
    (if away
     then match looking_away_start self with
          | None => Some now
          | Some t0 => Some t0
          end
     else None) /\
  total_looking_away_time s' =
    (if away then total_looking_away_time self
     else match looking_away_start self with
          | None => total_looking_away_time self
          | Some t0 => total_looking_away_time self + (now - t0)
          end) /\
  exists e, r_extra r = Some e /\
    x_total_away_time e = total_looking_away_time s' /\
    x_suspicion_score e = suspicion_score s' /\
    x_yaw e = yaw /\ x_pitch e = pitch /\
    x_confidence e = Calibrator.confidence cg /\
    x_looking_away_duration e =
      (if away
       then match looking_away_start self with
            | None => now - now
            | Some t0 => now - t0
            end
       else 0).
Proof.
  intros Hc yaw pitch now away. unfold analyze_gaze_behavior. rewrite Hc.
  fold yaw pitch away. fold now.
  destruct away eqn:Ea; destruct (looking_away_start self) as [t0 |] eqn:Es;
    cbv zeta;
    match goal with
    | |- context [_calculate_head_movement ?s ?y ?p] =>
      pose proof (head_movement_state s y p) as Hh;
      destruct (_calculate_head_movement s y p) as [v s1];
      cbn [snd] in Hh; subst s1
    end;
    match goal with
    | |- context [_determine_alert_level ?s ?d ?t ?c] =>
      pose proof (determine_frame s d t c) as Hd;
      destruct (_determine_alert_level s d t c) as [lvl s2];
      cbn [snd] in Hd;
      destruct Hd as (_ & _ & Ht & Hs & Hp & Hh & _)
    end;
    cbn in *; rewrite ?Ht, ?Hs, ?Hp, ?Hh, ?Es;
    (repeat split; try reflexivity);
    eexists; (split; [reflexivity |]); cbn; rewrite ?Ht; repeat split.
Qed.

(** The head-pose history never holds more than 50 poses, in any state a
    session can reach. *)
Theorem head_history_bounded self :
  reachable self -> (len (head_movement_history self) <= 50)%Z.
Proof.
  induction 1 as [clk | self cg fs ts clk _ IH | self _ IH | self mode _ IH].
  - cbn. lia.
  - pose proof (analyze_guard self cg fs ts clk) as Hg.
    destruct (guard_message cg fs) as [msg |].
    + rewrite Hg. exact IH.
    + destruct Hg as (g & f & -> & -> & Hc).
      pose proof (analyze_valid_state self g f ts clk Hc) as Hs.
      cbv zeta in Hs.
      destruct (analyze_gaze_behavior self (Some g) (Some f) ts clk)
        as [r s'].
      destruct Hs as (_ & Hh & _). cbn [snd]. rewrite Hh.
      unfold len. rewrite deque_append_length. lia.
  - exact IH.
  - unfold set_detection_mode.
    destruct (String.eqb mode "strict"); [| destruct (String.eqb mode "lenient")];
      exact IH.
Qed.

Lemma head_history_bounded_witness :
  (len (head_movement_history alerted) <= 50)%Z.
Proof. exact (head_history_bounded alerted alerted_reachable). Defined.

(** After a call that passes the input guard, the newest entry of the
    head-pose history is the pose of that call, and [looking_away_start] is
    unset exactly when the call reported the subject as not looking away. *)
Theorem valid_call_records_pose self cg f ts clk :
  0.3 <= Calibrator.confidence cg ->
  let '(r, s') := analyze_gaze_behavior self (Some cg) (Some f) ts clk in
  last (head_movement_history s') (0, 0) =
    (Calibrator.calibrated_yaw cg, Calibrator.calibrated_pitch cg) /\
  (looking_away_start s' = None <-> r_is_looking_away r = false).
Proof.
  intros Hc. apply Qltb_false in Hc.
  pose proof (analyze_valid_state self cg f ts clk Hc) as Hs.
  cbv zeta in Hs.
  destruct (analyze_gaze_behavior self (Some cg) (Some f) ts clk) as [r s'].
  destruct Hs as (Ha & Hh & _ & Hst & _). rewrite Hh, Hst, Ha.
  split; [apply deque_append_last; lia |].
  destruct (_is_looking_away self _ _).
  - destruct (looking_away_start self); split; discriminate.
  - split; reflexivity.
Qed.

Lemma valid_call_records_pose_witness :
  last (head_movement_history
          (snd (analyze_gaze_behavior alerted (Some (gaze_of 1 0.5 0.9))
                  (Some (Calibrator.sample_face 100)) 0 (clock_at 1007))))
    (0, 0) = (1, 0.5).
Proof.
  pose proof (valid_call_records_pose alerted (gaze_of 1 0.5 0.9)
                (Calibrator.sample_face 100) 0 (clock_at 1007)) as H.
  destruct (analyze_gaze_behavior alerted (Some (gaze_of 1 0.5 0.9))
              (Some (Calibrator.sample_face 100)) 0 (clock_at 1007))
    as [r s'].
  apply H. vm_compute. discriminate.
Defined.

(** The pattern counters in reachable states. *)
Lemma reachable_counters self :
  reachable self ->
  let p := repeated_patterns self in
  (0 <= downward_looks p)%Z /\ (0 <= side_looks p)%Z /\
  (side_looks p <= head_turns p)%Z.
Proof.
  intros Hr. cbv zeta.
  induction Hr as [clk | self cg fs ts clk Hr IH | self _ IH | self mode _ IH].
  - cbn. lia.
  - pose proof (analyze_guard self cg fs ts clk) as Hg.
    destruct (guard_message cg fs) as [msg |].
    + rewrite Hg. exact IH.
    + destruct Hg as (g & f & -> & -> & Hc).
      pose proof (analyze_valid_state self g f ts clk Hc) as Hs.
      cbv zeta in Hs.
      destruct (analyze_gaze_behavior self (Some g) (Some f) ts clk)
        as [r s'].
      destruct Hs as (_ & _ & Hp & _). cbn [snd]. rewrite Hp.
      destruct (reachable_constants self Hr) as (_ & _ & _ & _ & HS & HH).
      unfold _update_pattern_detection. rewrite HS, HH. cbn.
      generalize (Qabs (Calibrator.calibrated_yaw g)). intros y.
      qcases; cbn; try lia; lra.
  - cbn. lia.
  - unfold set_detection_mode.
    destruct (String.eqb mode "strict"); [| destruct (String.eqb mode "lenient")];
      exact IH.
Qed.

(** In every state a session can reach the three pattern counters are
    non-negative, and every side look has also been counted as a head turn:
    [side_looks] never exceeds [head_turns]. *)
Theorem pattern_counters_nested self :
  reachable self ->
  let p := repeated_patterns self in
  (0 <= downward_looks p)%Z /\ (0 <= side_looks p)%Z /\
  (side_looks p <= head_turns p)%Z.
Proof. exact (reachable_counters self). Qed.

Lemma pattern_counters_nested_witness :
  (side_looks (repeated_patterns alerted)
   <= head_turns (repeated_patterns alerted))%Z.
Proof. apply (pattern_counters_nested alerted alerted_reachable). Defined.

End DetectorState.

(** ** The detector: alerts *)

Section DetectorAlerts.
Import Config Detector Session.

Local Open Scope string_scope.

(** The branches of [_determine_alert_level], in their order of
    precedence. *)
Lemma determine_table self d now clk :
  let cfg := config self in
  let p := repeated_patterns self in
  let exceed :=
    ((MAX_DOWNWARD_LOOKS cfg < downward_looks p)%Z \/
     (MAX_SIDE_LOOKS cfg < side_looks p)%Z \/
     (MAX_HEAD_TURNS cfg < head_turns p)%Z) in
  let lvl := fst (_determine_alert_level self d now clk) in
  let s' := snd (_determine_alert_level self d now clk) in
  (now - last_alert_time self < ALERT_COOLDOWN cfg /\
   s' = self /\
   lvl = (if alert_active self then "ONGOING_ALERT" else "NO_ALERT")) \/
  (ALERT_COOLDOWN cfg <= now - last_alert_time self /\
   ((HIGH_SUSPICION_THRESHOLD cfg < suspicion_score self /\
     lvl = "CHEATING_DETECTED" /\
     s' = _trigger_alert self "HIGH_SUSPICION" now clk) \/
    (suspicion_score self <= HIGH_SUSPICION_THRESHOLD cfg /\
     ((CHEATING_GAZE_THRESHOLD cfg < d /\
       lvl = "CHEATING_DETECTED" /\
       s' = _trigger_alert self "PROLONGED_DISTRACTION" now clk) \/
      (d <= CHEATING_GAZE_THRESHOLD cfg /\
       ((SUSPICIOUS_GAZE_THRESHOLD cfg < d /\
         lvl = "SUSPICIOUS_BEHAVIOR" /\ s' = self) \/
        (d <= SUSPICIOUS_GAZE_THRESHOLD cfg /\
         ((exceed /\ lvl = "CHEATING_DETECTED" /\
           s' = _trigger_alert self "REPETITIVE_PATTERNS" now clk) \/
          (~ exceed /\ lvl = "NO_ALERT" /\
           s' = set_alert_active false self))))))))).
Proof.
  cbv zeta. unfold _determine_alert_level.
  destruct (Qltb (now - last_alert_time self) (ALERT_COOLDOWN (config self)))
    eqn:E1; [apply Qltb_true in E1 | apply Qltb_false in E1].
  { left. destruct (alert_active self); repeat split; assumption. }
  right. split; [exact E1 |].
  destruct (Qgtb (suspicion_score self) _) eqn:E2;
    [apply Qgtb_true in E2 | apply Qgtb_false in E2].
  { left. repeat split; assumption. }
  right. split; [exact E2 |].
  destruct (Qgtb d (CHEATING_GAZE_THRESHOLD (config self))) eqn:E3;
    [apply Qgtb_true in E3 | apply Qgtb_false in E3].
  { left. repeat split; assumption. }
  right. split; [exact E3 |].
  destruct (Qgtb d (SUSPICIOUS_GAZE_THRESHOLD (config self))) eqn:E4;
    [apply Qgtb_true in E4 | apply Qgtb_false in E4].
  { left. repeat split; assumption. }
  right. split; [exact E4 |].
  destruct ((downward_looks (repeated_patterns self)
             >? MAX_DOWNWARD_LOOKS (config self))%Z) eqn:E5;
    destruct ((side_looks (repeated_patterns self)
               >? MAX_SIDE_LOOKS (config self))%Z) eqn:E6;
    destruct ((head_turns (repeated_patterns self)
               >? MAX_HEAD_TURNS (config self))%Z) eqn:E7;
    cbn [orb];
    try (left; repeat split; lia).
  right. repeat split. lia.
Qed.

(** The effect of a call on the alert log, by returned level. *)
Lemma analyze_alert_cases self cg fs ts clk :
  let '(r, s') := analyze_gaze_behavior self cg fs ts clk in
  r_total_alerts r = len (cheating_alerts s') /\
  ((r_alert_level r = "CHEATING_DETECTED" /\
    ALERT_COOLDOWN (config self) <= time_time clk - last_alert_time self /\
    last_alert_time s' = time_time clk /\ alert_active s' = true /\
    exists a,
      cheating_alerts s' = (cheating_alerts self ++ [a])%list /\
      In (a_reason a) fired_reasons /\
      a_timestamp a = datetime_now clk /\
      a_suspicion_score a = r_suspicion_score r /\
      a_total_away_time a = total_looking_away_time s' /\
      a_patterns a = repeated_patterns s' /\
      a_alert_info a =
        dict_get ALERT_MESSAGES (a_reason a)
          {| message := a_reason a; severity := "MEDIUM";
             description := None |}) \/
   (r_alert_level r <> "CHEATING_DETECTED" /\
    cheating_alerts s' = cheating_alerts self /\
    last_alert_time s' = last_alert_time self)).
Proof.
  pose proof (analyze_guard self cg fs ts clk) as Hg.
  destruct (guard_message cg fs) as [msg |] eqn:Em.
  - rewrite Hg. cbn. split; [reflexivity |]. right.
    repeat split. unfold guard_message in Em.
    destruct cg as [g |], fs as [f |];
      try (injection Em as <-; discriminate).
    destruct (Qltb _ _); [injection Em as <-; discriminate | discriminate].
  - destruct Hg as (g & f & -> & -> & Hc).
    destruct (analyze_valid self g f ts clk Hc)
      as (d & v & s1 & -> & Hcfg & Hal & Hlt & Hac & _ & _).
    pose proof (determine_table s1 d (time_time clk) clk) as Ht.
    cbv zeta in Ht.
    destruct (_determine_alert_level s1 d (time_time clk) clk) as [lvl s2].
    cbn [fst snd] in Ht.
    rewrite ?Hcfg, ?Hlt, ?Hac in Ht.
    destruct Ht as [(Hcool & -> & ->) |
      (Hcool & [(_ & -> & ->) |
        (_ & [(_ & -> & ->) |
          (_ & [(_ & -> & ->) |
            (_ & [(_ & -> & ->) | (_ & -> & ->)])])])])];
      cbn; rewrite ?Hal, ?Hlt; (split; [reflexivity |]);
      try (right; repeat split; try reflexivity;
           try (destruct (alert_active self)); discriminate);
      left; (do 4 (split; [first [reflexivity | assumption] |]));
      eexists; (split; [reflexivity |]); cbn; repeat split; tauto.
Qed.

(** A call returns CHEATING_DETECTED exactly when it appends an alert to the
    log.  It then appends one alert, outside the cooldown window, with one of
    the three fired reasons and a snapshot of the score, away time and
    pattern counters that the call leaves in the detector; every other call
    leaves the log and [last_alert_time] as they were.  The alert count in
    the result is the length of the log after the call. *)
Theorem cheating_detected_iff_alert_logged self cg fs ts clk :
  let '(r, s') := analyze_gaze_behavior self cg fs ts clk in
  r_total_alerts r = len (cheating_alerts s') /\
  ((r_alert_level r = "CHEATING_DETECTED" /\
    ALERT_COOLDOWN (config self) <= time_time clk - last_alert_time self /\
    last_alert_time s' = time_time clk /\ alert_active s' = true /\
    exists a,
      cheating_alerts s' = (cheating_alerts self ++ [a])%list /\
      In (a_reason a) fired_reasons /\
      a_timestamp a = datetime_now clk /\
      a_suspicion_score a = r_suspicion_score r /\
      a_total_away_time a = total_looking_away_time s' /\
      a_patterns a = repeated_patterns s' /\
      a_alert_info a =
        dict_get ALERT_MESSAGES (a_reason a)
          {| message := a_reason a; severity := "MEDIUM";
             description := None |}) \/
   (r_alert_level r <> "CHEATING_DETECTED" /\
    cheating_alerts s' = cheating_alerts self /\
    last_alert_time s' = last_alert_time self)).
Proof. exact (analyze_alert_cases self cg fs ts clk). Qed.

(** Every alert in the log of a session carries one of the three reasons
    HIGH_SUSPICION, PROLONGED_DISTRACTION and REPETITIVE_PATTERNS (never
    RAPID_HEAD_MOVEMENT), the entry the table ALERT_MESSAGES gives for its
    reason (never the fallback entry), and a score between 0 and 100. *)
Theorem alert_log_well_formed self :
  reachable self ->
  Forall
    (fun a =>
       In (a_reason a) fired_reasons /\
       In (a_reason a, a_alert_info a) ALERT_MESSAGES /\
       description (a_alert_info a) <> None /\
       0 <= a_suspicion_score a <= 100)
    (cheating_alerts self).
Proof.
  induction 1 as [clk | self cg fs ts clk Hr IH | self _ IH | self mode _ IH].
  - constructor.
  - pose proof (analyze_alert_cases self cg fs ts clk) as Ha.
    pose proof (analyze_frame self cg fs ts clk) as Hf.
    pose proof (reachable_score _ (reach_analyze self cg fs ts clk Hr)) as Hb.
    pose proof (reachable_constants _ (reach_analyze self cg fs ts clk Hr))
      as (HM & _).
    rewrite HM in Hb.
    destruct (analyze_gaze_behavior self cg fs ts clk) as [r s'].
    cbn [snd] in *. destruct Hf as (_ & _ & Hrs & _).
    destruct Ha as (_ & [(_ & _ & _ & _ & a & -> & Hin & _ & Hsc & _ & _ & Hi)
                        | (_ & -> & _)]); [| exact IH].
    apply Forall_app. split; [exact IH |]. constructor; [| constructor].
    split; [exact Hin |]. rewrite Hi, Hsc, Hrs.
    split; [| split; [| exact Hb]];
      cbn in Hin; destruct Hin as [<- | [<- | [<- | []]]]; cbn;
      try discriminate; tauto.
  - exact IH.
  - unfold set_detection_mode.
    destruct (String.eqb mode "strict"); [| destruct (String.eqb mode "lenient")];
      exact IH.
Qed.

Lemma alert_log_well_formed_witness :
  Forall (fun a => In (a_reason a) fired_reasons) (cheating_alerts alerted).
Proof.
  eapply Forall_impl; [| exact (alert_log_well_formed alerted alerted_reachable)].
  cbv beta. intros a H. exact (proj1 H).
Defined.

Lemma reset_patterns_n_succ n self :
  reset_patterns_n (S n) self = reset_patterns (reset_patterns_n n self).
Proof. reflexivity. Qed.

Lemma reset_patterns_n_spec n self :
  let p := repeated_patterns self in
  reset_patterns_n n self =
  set_repeated_patterns
    {| downward_looks :=
         if (n =? 0)%nat then downward_looks p
         else Z.max 0 (downward_looks p - Z.of_nat n);
       side_looks :=
         if (n =? 0)%nat then side_looks p
         else Z.max 0 (side_looks p - Z.of_nat n);
       head_turns :=
         if (n =? 0)%nat then head_turns p
         else Z.max 0 (head_turns p - Z.of_nat n) |}
    self.
Proof.
  cbv zeta. induction n as [| n IH].
  - cbn. destruct self as [? ? ? ? ? ? ? ? ? ? [? ? ?] ?]. reflexivity.
  - rewrite reset_patterns_n_succ, IH. unfold reset_patterns.
    cbn [repeated_patterns set_repeated_patterns downward_looks side_looks
         head_turns config looking_away_start suspicious_events
         cheating_alerts last_alert_time head_movement_history
         gaze_off_screen_history alert_active total_looking_away_time
         session_start_time suspicion_score].
    unfold set_repeated_patterns. f_equal.
    change (S n =? 0)%nat with false. cbv iota.
    destruct n as [| n]; [cbn [Nat.eqb]; f_equal; lia |].
    change (S n =? 0)%nat with false. cbv iota. f_equal; lia.
Qed.

(** In a session, [reset_patterns] called n times lowers each pattern
    counter by n, not below 0, and changes nothing else in the detector. *)
Theorem reset_patterns_decays n self :
  reachable self ->
  let p := repeated_patterns self in
  reset_patterns_n n self =
  set_repeated_patterns
    {| downward_looks := Z.max 0 (downward_looks p - Z.of_nat n);
       side_looks := Z.max 0 (side_looks p - Z.of_nat n);
       head_turns := Z.max 0 (head_turns p - Z.of_nat n) |}
    self.
Proof.
  intros Hr. cbv zeta. rewrite reset_patterns_n_spec. cbv zeta.
  pose proof (reachable_counters self Hr) as Hc. cbv zeta in Hc.
  destruct n as [| n]; [| reflexivity].
  cbn [Nat.eqb Z.of_nat]. unfold set_repeated_patterns. f_equal. f_equal; lia.
Qed.

Lemma reset_patterns_decays_witness :
  repeated_patterns (reset_patterns_n 3 alerted) =
  {| downward_looks := 4; side_looks := 0; head_turns := 0 |}.
Proof.
  rewrite (reset_patterns_decays 3 alerted alerted_reachable). reflexivity.
Defined.

(** Switching the detection mode twice is switching to the second mode; any
    mode name other than strict and lenient selects moderate; and in a
    session, switching to moderate restores the configuration the class
    starts with. *)
Theorem detection_mode_last_wins self m1 m2 :
  reachable self ->
  set_detection_mode (set_detection_mode self m1) m2 =
    set_detection_mode self m2 /\
  config (set_detection_mode self "moderate") = Config.initial /\
  (m1 <> "strict" -> m1 <> "lenient" ->
   set_detection_mode self m1 = set_detection_mode self "moderate").
Proof.
  intros Hr. destruct (reachable_config self Hr) as (a & b & c & d & e & Hc).
  repeat split.
  - unfold set_detection_mode.
    destruct (String.eqb m1 "strict"), (String.eqb m1 "lenient"),
      (String.eqb m2 "strict"), (String.eqb m2 "lenient"); reflexivity.
  - cbn. rewrite Hc. reflexivity.
  - intros H1 H2. apply String.eqb_neq in H1, H2.
    unfold set_detection_mode. rewrite H1, H2. reflexivity.
Qed.

Lemma detection_mode_last_wins_witness :
  set_detection_mode (set_detection_mode alerted "strict") "relaxed" =
  set_detection_mode alerted "moderate".
Proof.
  destruct (detection_mode_last_wins alerted "strict" "relaxed"
              alerted_reachable) as (H1 & _ & _).
  destruct (detection_mode_last_wins alerted "relaxed" "relaxed"
              alerted_reachable) as (_ & _ & H3).
  rewrite H1. apply H3; discriminate.
Defined.

End DetectorAlerts.

(** ** The detector: away time *)

Section DetectorTiming.
Import Config Detector Session.

Lemma away_is_looking_away self f cg :
  away (config self) f -> f_gaze f = Some cg ->
  _is_looking_away self (Calibrator.calibrated_yaw cg)
    (Calibrator.calibrated_pitch cg) = true /\
  Qltb (Calibrator.confidence cg) 0.3 = false.
Proof.
  intros (g & fa & Hg & _ & Hc & Ha) Hg'. rewrite Hg in Hg'.
  apply Some_inj in Hg'. subst g. split; [| apply (proj2 (Qltb_false _ _)); exact Hc].
  unfold _is_looking_away.
  destruct Ha as [Ha | Ha]; apply Qgtb_true in Ha; rewrite Ha;
    [reflexivity | destruct (Qgtb (Calibrator.calibrated_pitch cg) _); reflexivity].
Qed.

Lemma attentive_not_looking_away self f cg :
  attentive (config self) f -> f_gaze f = Some cg ->
  _is_looking_away self (Calibrator.calibrated_yaw cg)
    (Calibrator.calibrated_pitch cg) = false /\
  Qltb (Calibrator.confidence cg) 0.3 = false.
Proof.
  intros (g & fa & Hg & _ & Hc & Hp & Hy) Hg'. rewrite Hg in Hg'.
  apply Some_inj in Hg'. subst g. split; [| apply (proj2 (Qltb_false _ _)); exact Hc].
  unfold _is_looking_away.
  apply Qgtb_false in Hp. apply Qgtb_false in Hy. now rewrite Hp, Hy.
Qed.

Lemma rejected_step self f : rejected f -> step self f = 
  (fst (step self f), self).
Proof.
  unfold rejected, step. intros Hr.
  pose proof (analyze_guard self (f_gaze f) (f_face f) (f_timestamp f)
                (f_clock f)) as Hg.
  destruct (guard_message (f_gaze f) (f_face f)) as [msg |];
    [| contradiction]. rewrite Hg. reflexivity.
Qed.

(** The away timer and total after one frame of each kind. *)
Lemma away_step self f :
  away (config self) f ->
  let s' := snd (step self f) in
  config s' = config self /\
  total_looking_away_time s' = total_looking_away_time self /\
  looking_away_start s' =
    match looking_away_start self with
    | None => Some (time_of f)
    | Some t0 => Some t0
    end.
Proof.
  intros Ha. pose proof Ha as (g & fa & Hg & Hfa & _).
  destruct (away_is_looking_away self f g Ha Hg) as (Hl & Hc).
  unfold step, time_of. rewrite Hg, Hfa.
  pose proof (analyze_valid_state self g fa (f_timestamp f) (f_clock f) Hc)
    as Hs.
  pose proof (analyze_frame self (Some g) (Some fa) (f_timestamp f)
                (f_clock f)) as Hf.
  cbv zeta in Hs. rewrite Hl in Hs.
  destruct (analyze_gaze_behavior self (Some g) (Some fa) (f_timestamp f)
              (f_clock f)) as [r s'].
  cbn [snd]. destruct Hs as (_ & _ & _ & Hst & Ht & _).
  destruct Hf as (Hcfg & _). repeat split; assumption.
Qed.

Lemma attentive_step_timing self f :
  attentive (config self) f ->
  let s' := snd (step self f) in
  looking_away_start s' = None /\
  total_looking_away_time s' =
    match looking_away_start self with
    | None => total_looking_away_time self
    | Some t0 => total_looking_away_time self + (time_of f - t0)
    end.
Proof.
  intros Ha. pose proof Ha as (g & fa & Hg & Hfa & _).
  destruct (attentive_not_looking_away self f g Ha Hg) as (Hl & Hc).
  unfold step, time_of. rewrite Hg, Hfa.
  pose proof (analyze_valid_state self g fa (f_timestamp f) (f_clock f) Hc)
    as Hs.
  cbv zeta in Hs. rewrite Hl in Hs.
  destruct (analyze_gaze_behavior self (Some g) (Some fa) (f_timestamp f)
              (f_clock f)) as [r s'].
  cbn [snd]. destruct Hs as (_ & _ & _ & Hst & Ht & _).
  split; assumption.
Qed.

Lemma away_run rest : forall self t0,
  looking_away_start self = Some t0 ->
  Forall (fun f => away (config self) f \/ rejected f) rest ->
  let s' := snd (run self rest) in
  config s' = config self /\
  total_looking_away_time s' = total_looking_away_time self /\
  looking_away_start s' = Some t0.
Proof.
  induction rest as [| f rest IH]; intros self t0 Hs Hall; cbv zeta.
  - cbn. repeat split; assumption.
  - inversion Hall as [| ? ? Hf Hrest]; subst. cbn [run].
    assert (H1 : config (snd (step self f)) = config self /\
                 total_looking_away_time (snd (step self f)) =
                   total_looking_away_time self /\
                 looking_away_start (snd (step self f)) = Some t0).
    { destruct Hf as [Hf | Hf].
      - destruct (away_step self f Hf) as (Hc & Ht & Hst).
        rewrite Hs in Hst. repeat split; assumption.
      - rewrite (rejected_step self f Hf). cbn [snd].
        repeat split; assumption. }
    destruct (step self f) as [r s1]. cbn [snd] in H1.
    destruct H1 as (Hc & Ht & Hst).
    specialize (IH s1 t0 Hst). rewrite Hc in IH. specialize (IH Hrest).
    cbv zeta in IH. destruct (run s1 rest) as [rs s2]. cbn [snd] in *.
    destruct IH as (Hc2 & Ht2 & Hst2). repeat split; congruence.
Qed.

(** An away episode is accounted from its first away frame to the first
    attentive frame after it: starting with no episode under way, after an
    away frame followed by any mix of away frames and frames the input guard
    rejects, the timer still holds the clock reading of the first away frame
    and the total is unchanged; the next attentive frame clears the timer and
    adds the time elapsed since that first away frame to the total. *)
Theorem away_episode_accounted self f1 rest g :
  looking_away_start self = None ->
  away (config self) f1 ->
  Forall (fun f => away (config self) f \/ rejected f) rest ->
  attentive (config self) g ->
  let s1 := snd (run self (f1 :: rest)) in
  let s2 := snd (step s1 g) in
  looking_away_start s1 = Some (time_of f1) /\
  total_looking_away_time s1 = total_looking_away_time self /\
  looking_away_start s2 = None /\
  total_looking_away_time s2 =
    total_looking_away_time self + (time_of g - time_of f1).
Proof.
  intros Hs Hf1 Hrest Hg. cbv zeta. cbn [run].
  destruct (away_step self f1 Hf1) as (Hc & Ht & Hst). rewrite Hs in Hst.
  destruct (step self f1) as [r s0]. cbn [snd] in *.
  pose proof (away_run rest s0 (time_of f1) Hst) as Hr.
  rewrite Hc in Hr. specialize (Hr Hrest). cbv zeta in Hr.
  destruct (run s0 rest) as [rs s1]. cbn [snd] in *.
  destruct Hr as (Hc1 & Ht1 & Hst1).
  rewrite <- Hc1 in Hg.
  destruct (attentive_step_timing s1 g Hg) as (Hn & Htot).
  rewrite Hst1 in Htot. repeat split; congruence.
Qed.

Lemma away_episode_accounted_witness :
  total_looking_away_time
    (snd (step (snd (run fresh [frame_at 1000 0 0.5 0.9;
                                frame_at 1001 1 0 0.9;
                                frame_at 1002 0 0.5 0.1]))
            (frame_at 1003 0 0 0.9)))
  = total_looking_away_time fresh
    + (time_of (frame_at 1003 0 0 0.9) - time_of (frame_at 1000 0 0.5 0.9)).
Proof.
  assert (H1 : away (config fresh) (frame_at 1000 0 0.5 0.9)).
  { eexists _, _. repeat split; [vm_compute; discriminate |].
    left. reflexivity. }
  assert (H2 : Forall (fun f => away (config fresh) f \/ rejected f)
                 [frame_at 1001 1 0 0.9; frame_at 1002 0 0.5 0.1]).
  { constructor; [| constructor; [| constructor]].
    - left. eexists _, _. repeat split; [vm_compute; discriminate |].
      right. reflexivity.
    - right. unfold rejected. vm_compute. discriminate. }
  assert (H3 : attentive (config fresh) (frame_at 1003 0 0 0.9)).
  { eexists _, _. repeat split; vm_compute; discriminate. }
  exact (proj2 (proj2 (proj2
           (away_episode_accounted fresh _ _ _ eq_refl H1 H2 H3)))).
Defined.

Lemma timing_inv_later s t t' : timing_inv s t -> t <= t' -> timing_inv s t'.
Proof.
  unfold timing_inv. intros (H1 & H2 & H3) Ht.
  destruct (looking_away_start s) as [t0 |]; repeat split; lra.
Qed.

Lemma step_timing_inv self f t :
  timing_inv self t -> t <= time_of f ->
  timing_inv (snd (step self f)) (time_of f).
Proof.
  intros Hi Ht. unfold step, time_of in *.
  pose proof (analyze_guard self (f_gaze f) (f_face f) (f_timestamp f)
                (f_clock f)) as Hg.
  destruct (guard_message (f_gaze f) (f_face f)) as [msg |].
  - rewrite Hg. cbn [snd]. now apply (timing_inv_later self t).
  - destruct Hg as (g & fa & -> & -> & Hc).
    pose proof (analyze_valid_state self g fa (f_timestamp f) (f_clock f) Hc)
      as Hs.
    pose proof (analyze_frame self (Some g) (Some fa) (f_timestamp f)
                  (f_clock f)) as Hf.
    cbv zeta in Hs.
    destruct (analyze_gaze_behavior self (Some g) (Some fa) (f_timestamp f)
                (f_clock f)) as [r s'].
    cbn [snd]. destruct Hs as (_ & _ & _ & Hst & Htot & _).
    destruct Hf as (_ & Hss & _).
    destruct Hi as (H1 & H2 & H3).
    unfold timing_inv. rewrite Hst, Htot, Hss.
    destruct (_is_looking_away self _ _);
      destruct (looking_away_start self) as [t0 |]; repeat split; lra.
Qed.

Lemma run_timing_inv frames : forall self t,
  timing_inv self t -> ordered_from t frames ->
  timing_inv (snd (run self frames)) (last_time t frames).
Proof.
  induction frames as [| f rest IH]; intros self t Hi Ho.
  - exact Hi.
  - destruct Ho as (Ht & Ho). cbn [run last_time].
    pose proof (step_timing_inv self f t Hi Ht) as H1.
    destruct (step self f) as [r s1]. cbn [snd] in H1.
    specialize (IH s1 (time_of f) H1 Ho).
    destruct (run s1 rest) as [rs s2]. exact IH.
Qed.

(** In a session whose clock never runs backwards, the accumulated away time
    is never negative, and the away-time percentage of a summary taken at or
    after the last call lies between 0 and 100. *)
Theorem away_percentage_bounded cfg clk0 frames clk :
  ordered_from (time_time clk0) frames ->
  last_time (time_time clk0) frames <= time_time clk ->
  let self := snd (run (init cfg clk0) frames) in
  0 <= total_looking_away_time self /\
  0 <= away_time_percentage (get_session_summary self clk) <= 100.
Proof.
  intros Ho Hl self.
  assert (H0 : timing_inv (init cfg clk0) (time_time clk0)).
  { unfold timing_inv. cbn. repeat split; lra. }
  pose proof (run_timing_inv frames _ _ H0 Ho) as Hi. fold self in Hi.
  destruct Hi as (H1 & H2 & H3). split; [exact H2 |].
  unfold get_session_summary. cbn [away_time_percentage].
  set (dur := time_time clk - session_start_time self).
  set (tot := total_looking_away_time self) in *.
  assert (Hd : tot <= dur).
  { unfold dur. destruct (looking_away_start self) as [t0 |]; lra. }
  destruct (Qgtb dur 0) eqn:E; [apply Qgtb_true in E | lra].
  assert (Ha : 0 <= tot / dur) by (apply Qle_shift_div_l; lra).
  assert (Hb : tot / dur <= 1) by (apply Qle_shift_div_r; lra).
  lra.
Qed.

Lemma away_percentage_bounded_witness :
  0 <= away_time_percentage
         (get_session_summary
            (snd (run (init Config.initial (clock_at 1000))
                    looking_down_frames))
            (clock_at 1010))
    <= 100.
Proof.
  apply (away_percentage_bounded Config.initial (clock_at 1000)
           looking_down_frames (clock_at 1010)).
  - cbn. unfold time_of. cbn. repeat split; vm_compute; discriminate.
  - vm_compute. discriminate.
Defined.

End DetectorTiming.

(** ** The detector: session summary *)

Section DetectorSummary.
Import Config Detector Session.

Local Open Scope string_scope.

(** The behavior analysis of a summary has an entry for a pattern exactly
    when its counter is positive; the entry carries that count, the
    description BEHAVIOR_DESCRIPTIONS gives for the pattern (never
    "Unknown behavior"), and severity HIGH above 10, MEDIUM above 5 and LOW
    otherwise. *)
Theorem behavior_analysis_entries self clk :
  let a := behavior_analysis (get_session_summary self clk) in
  (forall k e, In (k, e) a ->
     In (k, b_count e) (items (repeated_patterns self)) /\
     (0 < b_count e)%Z /\
     In (k, b_description e) BEHAVIOR_DESCRIPTIONS /\
     b_severity e =
       if (b_count e >? 10)%Z then "HIGH"
       else if (b_count e >? 5)%Z then "MEDIUM" else "LOW") /\
  (forall k c, In (k, c) (items (repeated_patterns self)) -> (0 < c)%Z ->
     exists e, In (k, e) a /\ b_count e = c).
Proof.
  cbv zeta. unfold get_session_summary. cbn [behavior_analysis].
  unfold _generate_behavior_analysis. split.
  - intros k e Hin. apply in_flat_map in Hin.
    destruct Hin as ([k' c] & Hi & He).
    destruct (c >? 0)%Z eqn:Ec; [| contradiction].
    destruct He as [He | []]. injection He as <- <-. cbn [b_count b_severity
      b_description].
    split; [exact Hi |]. split; [lia |]. split; [| reflexivity].
    cbn in Hi. destruct Hi as [Hi | [Hi | [Hi | []]]];
      injection Hi as <- _; cbn; tauto.
  - intros k c Hi Hc. eexists. split.
    + apply in_flat_map. exists (k, c). split; [exact Hi |].
      destruct (c >? 0)%Z eqn:Ec; [| lia]. left. reflexivity.
    + reflexivity.
Qed.

End DetectorSummary.

(** ** Facial structure *)

Section FaceAnalysisFacts.
Import Calibrator FaceAnalysis.

Lemma scan_landmarks_late ls : forall i acc,
  (3 <= i)%nat -> scan_landmarks i ls acc = acc.
Proof.
  induction ls as [| l rest IH]; intros i acc Hi; [reflexivity |].
  cbn [scan_landmarks]. destruct acc as [[le re] nt].
  destruct i as [| [| [| i]]]; try lia.
  cbn [Nat.eqb]. apply IH. lia.
Qed.

Lemma scan_landmarks_three a b c rest :
  scan_landmarks 0 (a :: b :: c :: rest) (None, None, None) =
  (Some (lm_x a, lm_y a), Some (lm_x b, lm_y b), Some (lm_x c, lm_y c)).
Proof.
  cbn [scan_landmarks Nat.eqb]. apply scan_landmarks_late. lia.
Qed.

Lemma Qsqrt_nonneg (q : Q) : 0 <= Qsqrt q.
Proof.
  unfold Qsqrt, Qle. cbn [Qnum Qden]. rewrite Z.mul_1_r. cbn [Z.mul].
  apply Z.sqrt_nonneg.
Qed.

(** [analyze_facial_structure] returns None exactly when the face has fewer
    than five landmarks, a missing landmarks key counting as none. *)
Theorem facial_structure_needs_five_landmarks fd :
  analyze_facial_structure fd = None <->
  (len (match landmarks fd with Some l => l | None => [] end) < 5)%Z.
Proof.
  unfold analyze_facial_structure.
  destruct (landmarks fd) as [ls |]; cbv zeta.
  - destruct (len ls <? 5)%Z eqn:E; [split; [lia | reflexivity] |].
    destruct ls as [| a [| b [| c rest]]]; try (cbn in E; discriminate).
    rewrite scan_landmarks_three. split; [discriminate | lia].
  - cbn. split; [intros _; reflexivity | reflexivity].
Qed.

(** With five landmarks or more the structure is built from the face size
    and the first three landmarks only: the first is the left eye, the
    second the right eye, the third the nose tip, the eye centre is the
    midpoint of the eyes and the eye distance, a non-negative number, the
    root of the squared coordinate differences. *)
Theorem facial_structure_from_first_three fd a b c d e rest :
  landmarks fd = Some (a :: b :: c :: d :: e :: rest) ->
  exists fs,
    analyze_facial_structure fd = Some fs /\
    face_dimensions fs = (width fd, height fd) /\
    left_eye fs = (lm_x a, lm_y a) /\
    right_eye fs = (lm_x b, lm_y b) /\
    nose_tip fs = Some (lm_x c, lm_y c) /\
    eye_center fs = ((lm_x a + lm_x b) / 2, (lm_y a + lm_y b) / 2) /\
    eye_distance fs =
      Qsqrt ((lm_x b - lm_x a) ^ 2 + (lm_y b - lm_y a) ^ 2) /\
    0 <= eye_distance fs.
Proof.
  intros Hl. unfold analyze_facial_structure. rewrite Hl. cbv zeta.
  assert (E : (len (a :: b :: c :: d :: e :: rest) <? 5)%Z = false).
  { apply Z.ltb_ge. unfold len. cbn [List.length]. lia. }
  rewrite E, scan_landmarks_three. cbn [fst snd].
  eexists. split; [reflexivity |]. cbn.
  repeat split. apply Qsqrt_nonneg.
Qed.

Lemma facial_structure_from_first_three_witness :
  exists fs,
    analyze_facial_structure sample_face_data = Some fs /\
    nose_tip fs = Some (320, 270).
Proof.
  destruct (facial_structure_from_first_three sample_face_data _ _ _ _ _ _
              eq_refl) as (fs & H & _ & _ & _ & Hn & _).
  exists fs. split; assumption.
Defined.

End FaceAnalysisFacts.

(** ** Gaze smoothing *)

Section SmoothingFacts.
Import Smoothing.

Lemma Qsum_pos (w : list Q) :
  w <> [] -> Forall (fun x => 0 < x) w -> 0 < Qsum w.
Proof.
  intros Hne Hw. induction Hw as [| x w Hx Hw IH]; [contradiction |].
  cbn [Qsum fold_right]. destruct w as [| y w].
  - cbn. lra.
  - assert (H : 0 < Qsum (y :: w)) by (apply IH; discriminate).
    unfold Qsum in H. lra.
Qed.

(** A weighted sum with positive weights lies between the bounds of the
    values times the sum of the weights. *)
Lemma weighted_sum_bounds (lo hi : Q) (a : list Q) : forall w,
  List.length a = List.length w ->
  Forall (fun x => 0 < x) w ->
  Forall (fun x => lo <= x <= hi) a ->
  lo * Qsum w <= Qsum (np_multiply a w) <= hi * Qsum w.
Proof.
  induction a as [| x a IH]; intros w Hl Hw Ha.
  - destruct w; [| discriminate]. cbn. lra.
  - destruct w as [| y w]; [discriminate |].
    inversion Hw as [| ? ? Hy Hw']; subst.
    inversion Ha as [| ? ? Hx Ha']; subst.
    injection Hl as Hl. specialize (IH w Hl Hw' Ha').
    cbn [np_multiply Qsum fold_right]. fold (Qsum w).
    fold (Qsum (np_multiply a w)).
    assert (H1 : lo * y <= x * y) by (apply Qmult_le_compat_r; lra).
    assert (H2 : x * y <= hi * y) by (apply Qmult_le_compat_r; lra).
    lra.
Qed.

Lemma np_average_bounds (lo hi : Q) (a w : list Q) :
  a <> [] -> List.length a = List.length w ->
  Forall (fun x => 0 < x) w ->
  Forall (fun x => lo <= x <= hi) a ->
  lo <= np_average a w <= hi.
Proof.
  intros Hne Hl Hw Ha.
  assert (Hs : 0 < Qsum w).
  { apply Qsum_pos; [| exact Hw]. destruct w; [| discriminate].
    destruct a; [contradiction | discriminate]. }
  pose proof (weighted_sum_bounds lo hi a w Hl Hw Ha) as Hb.
  unfold np_average. split.
  - apply Qle_shift_div_l; lra.
  - apply Qle_shift_div_r; lra.
Qed.

Lemma np_linspace_length start stop n :
  List.length (np_linspace start stop n) = n.
Proof.
  destruct n as [| [| n]]; [reflexivity | reflexivity |].
  unfold np_linspace. now rewrite length_map, length_seq.
Qed.

Lemma np_linspace_pos n : Forall (fun x => 0 < x) (np_linspace 0.5 1.0 n).
Proof.
  destruct n as [| [| n]]; [constructor | |].
  - constructor; [reflexivity | constructor].
  - unfold np_linspace. apply Forall_forall. intros x Hx.
    apply in_map_iff in Hx. destruct Hx as (i & <- & _).
    set (m := S (S n)).
    assert (Hm : 0 < inject_Z (Z.of_nat m - 1)).
    { change 0 with (inject_Z 0). rewrite <- Zlt_Qlt. unfold m. lia. }
    assert (Hi : 0 <= inject_Z (Z.of_nat i)).
    { change 0 with (inject_Z 0). rewrite <- Zle_Qle. lia. }
    assert (Hs : 0 <= (1.0 - 0.5) / inject_Z (Z.of_nat m - 1)).
    { apply Qle_shift_div_l; [exact Hm | lra]. }
    assert (Hp : 0 <= inject_Z (Z.of_nat i)
                      * ((1.0 - 0.5) / inject_Z (Z.of_nat m - 1))).
    { apply Qmult_le_0_compat; assumption. }
    lra.
Qed.

Lemma weights_pos n : Forall (fun x => 0 < x) (weights n).
Proof.
  unfold weights. destruct n as [| n]; [constructor |].
  pose proof (np_linspace_pos (S n)) as Hp.
  assert (Hs : 0 < Qsum (np_linspace 0.5 1.0 (S n))).
  { apply Qsum_pos; [| exact Hp]. intros E.
    apply (f_equal (@List.length Q)) in E.
    rewrite np_linspace_length in E. discriminate. }
  apply Forall_forall. intros x Hx. apply in_map_iff in Hx.
  destruct Hx as (y & <- & Hy).
  rewrite Forall_forall in Hp. specialize (Hp y Hy).
  apply Qlt_shift_div_l; lra.
Qed.

Lemma weights_length n : List.length (weights n) = n.
Proof. unfold weights. now rewrite length_map, np_linspace_length. Qed.

(** The three histories of a smoother always have the same length, at most
    the window size; and no smoothed gaze is returned while they are
    empty. *)
Theorem smoothing_histories_in_step n self :
  reachable n self ->
  window_size self = n /\
  List.length (pitch_history self) = List.length (yaw_history self) /\
  List.length (gaze_point_history self) = List.length (yaw_history self) /\
  (List.length (yaw_history self) <= n)%nat /\
  (get_smoothed_gaze self = None <-> yaw_history self = []).
Proof.
  intros Hr.
  assert (H : window_size self = n /\
              List.length (pitch_history self) = List.length (yaw_history self) /\
              List.length (gaze_point_history self)
                = List.length (yaw_history self) /\
              (List.length (yaw_history self) <= n)%nat).
  { induction Hr as [| self yaw pitch gp _ (Hw & Hp & Hg & Hn)].
    - cbn. repeat split. lia.
    - cbn [add_gaze window_size yaw_history pitch_history
           gaze_point_history].
      rewrite !deque_append_length, Hp, Hg, Hw. repeat split; lia. }
  destruct H as (Hw & Hp & Hg & Hn). repeat split; try assumption.
  - unfold get_smoothed_gaze. destruct (yaw_history self); [reflexivity |].
    cbn. discriminate.
  - intros H. unfold get_smoothed_gaze. rewrite H. reflexivity.
Qed.

Lemma smoothing_histories_in_step_witness :
  (List.length (yaw_history (add_gaze (add_gaze (init 1) 1 2 (3, 4)%Q) 5 6 (7, 8)%Q))
   <= 1)%nat.
Proof.
  apply (smoothing_histories_in_step 1). repeat constructor.
Defined.

(** The smoothed yaw and pitch are weighted means with positive weights:
    each lies between any bounds that hold for every sample in its window,
    so it lies between the smallest and the largest sample and equals the
    sample value when all samples agree. *)
Theorem smoothed_gaze_within_window n self y p gp lo hi :
  reachable n self ->
  get_smoothed_gaze self = Some (y, p, gp) ->
  (Forall (fun x => lo <= x <= hi) (yaw_history self) -> lo <= y <= hi) /\
  (Forall (fun x => lo <= x <= hi) (pitch_history self) -> lo <= p <= hi).
Proof.
  intros Hr Hs.
  assert (Hp : List.length (pitch_history self)
               = List.length (yaw_history self)).
  { clear Hs. induction Hr as [| self yaw pitch g _ IH]; [reflexivity |].
    cbn [add_gaze yaw_history pitch_history].
    now rewrite !deque_append_length, IH. }
  unfold get_smoothed_gaze in Hs.
  destruct (len (yaw_history self) =? 0)%Z eqn:E; [discriminate |].
  apply Some_inj in Hs.
  assert (Hne : yaw_history self <> []).
  { intros H0. rewrite H0 in E. discriminate. }
  assert (Hy : y = np_average (yaw_history self)
                     (weights (List.length (yaw_history self))))
    by congruence.
  assert (Hq : p = np_average (pitch_history self)
                     (weights (List.length (yaw_history self))))
    by congruence.
  split; intros Hb.
  - rewrite Hy. apply np_average_bounds;
      [exact Hne | now rewrite weights_length | apply weights_pos | exact Hb].
  - rewrite Hq. apply np_average_bounds;
      [| now rewrite weights_length | apply weights_pos | exact Hb].
    intros H0. rewrite H0 in Hp. destruct (yaw_history self);
      [contradiction | discriminate].
Qed.

Lemma smoothed_gaze_within_window_witness :
  exists y p gp,
    get_smoothed_gaze (add_gaze (add_gaze (init 7) 1 2 (3, 4)%Q) 3 2 (5, 6)%Q)
    = Some (y, p, gp) /\ 1 <= y <= 3.
Proof.
  destruct (get_smoothed_gaze
              (add_gaze (add_gaze (init 7) 1 2 (3, 4)%Q) 3 2 (5, 6)%Q))
    as [[[y p] gp] |] eqn:E; [| vm_compute in E; discriminate E].
  exists y, p, gp. split; [reflexivity |].
  apply (proj1 (smoothed_gaze_within_window 7 _ y p gp 1 3
                  (reach_add 7 _ 3 2 (5, 6)%Q
                     (reach_add 7 _ 1 2 (3, 4)%Q (reach_init 7))) E)).
  repeat constructor; vm_compute; discriminate.
Defined.

End SmoothingFacts.

(** ** The video processor *)

Section VideoFacts.
Import Calibrator FaceAnalysis Detector Video.

Lemma structured_cons gc gazes :
  structured (gc :: gazes) =
  (match analyze_facial_structure (face (fst gc)) with
   | Some _ => 1
   | None => 0
   end + structured gazes)%Z.
Proof.
  unfold structured, len. cbn [filter].
  destruct (analyze_facial_structure (face (fst gc)));
    cbn [List.length]; lia.
Qed.

Lemma structured_nonneg gazes : (0 <= structured gazes)%Z.
Proof. apply len_nonneg. Qed.

(** One detection: the calibrator after it, and that the detector is left
    alone unless the calibrator is calibrated by then. *)
Lemma process_gaze_effect ts fa self gc :
  let '(fa', self') := process_gaze ts (fa, self) gc in
  Calibrator.reachable (gaze_calibrator self) ->
  Calibrator.reachable (gaze_calibrator self') /\
  frame_count (gaze_calibrator self') =
    (frame_count (gaze_calibrator self)
     + match analyze_facial_structure (face (fst gc)) with
       | Some _ => 1
       | None => 0
       end)%Z /\
  (analyze_facial_structure (face (fst gc)) = None ->
   fa' = fa /\ self' = self) /\
  ((frame_count (gaze_calibrator self') < 30)%Z ->
   fa' = fa /\ cheating_detector self' = cheating_detector self).
Proof.
  destruct gc as [gaze clk]. unfold process_gaze. cbn [fst].
  destruct (analyze_facial_structure (face gaze)) as [fs |].
  2: { intros Hr. repeat split; try assumption; lia. }
  cbv zeta.
  set (cal := fst (update_baseline (gaze_calibrator self)
                     (gaze_data_of gaze) (Some fs))).
  assert (Hpre : Calibrator.reachable (gaze_calibrator self) ->
                 Calibrator.reachable cal /\
                 frame_count cal = (frame_count (gaze_calibrator self) + 1)%Z /\
                 ((frame_count cal < 30)%Z -> is_calibrated cal = false)).
  { intros Hr.
    assert (Hc : Calibrator.reachable cal) by now apply reach_update.
    split; [exact Hc |]. split.
    - unfold cal. now rewrite update_baseline_frame_count.
    - intros Hlt. pose proof (calibrated_iff_count cal (reachable_inv _ Hc)) as Hi.
      destruct (is_calibrated cal); [| reflexivity].
      destruct Hi as [Hi _]. specialize (Hi eq_refl). lia. }
  clearbody cal.
  destruct (calibrated_gaze_prediction cal (gaze_data_of gaze) fs) as [cg |].
  - destruct (is_calibrated cal) eqn:Ec.
    + destruct (analyze_gaze_behavior _ _ _ _ _) as [r det].
      intros Hr. destruct (Hpre Hr) as (H1 & H2 & H3). cbn.
      split; [exact H1 |]. split; [exact H2 |]. split; [discriminate |].
      intros Hlt. specialize (H3 Hlt). discriminate.
    + intros Hr. destruct (Hpre Hr) as (H1 & H2 & H3). cbn.
      split; [exact H1 |]. split; [exact H2 |]. split; [discriminate |].
      intros _. split; reflexivity.
  - intros Hr. destruct (Hpre Hr) as (H1 & H2 & H3). cbn.
    split; [exact H1 |]. split; [exact H2 |]. split; [discriminate |].
    intros _. split; reflexivity.
Qed.

Lemma fold_process_gaze ts gazes : forall fa self,
  let '(fa', self') := fold_left (process_gaze ts) gazes (fa, self) in
  Calibrator.reachable (gaze_calibrator self) ->
  Calibrator.reachable (gaze_calibrator self') /\
  frame_count (gaze_calibrator self') =
    (frame_count (gaze_calibrator self) + structured gazes)%Z /\
  (structured gazes = 0%Z -> fa' = fa /\ self' = self) /\
  ((frame_count (gaze_calibrator self') < 30)%Z ->
   fa' = fa /\ cheating_detector self' = cheating_detector self).
Proof.
  induction gazes as [| gc rest IH]; intros fa self.
  - cbn [fold_left]. intros Hr. change (structured []) with 0%Z.
    repeat split; try assumption. lia.
  - cbn [fold_left]. rewrite structured_cons.
    pose proof (process_gaze_effect ts fa self gc) as H1.
    destruct (process_gaze ts (fa, self) gc) as [fa1 self1].
    specialize (IH fa1 self1).
    destruct (fold_left (process_gaze ts) rest (fa1, self1)) as [fa2 self2].
    intros Hr. destruct (H1 Hr) as (Hr1 & Hc1 & Hn1 & Hd1).
    destruct (IH Hr1) as (Hr2 & Hc2 & Hn2 & Hd2).
    pose proof (structured_nonneg rest) as Hnn.
    split; [exact Hr2 |]. split; [lia |]. split.
    + intros Hz.
      destruct (analyze_facial_structure (face (fst gc))); [lia |].
      destruct (Hn1 eq_refl) as (-> & ->). apply Hn2. lia.
    + intros Hlt. destruct (Hd2 Hlt) as (-> & ->). apply Hd1.
      destruct (analyze_facial_structure (face (fst gc))); lia.
Qed.

Lemma reachable_calibrator self :
  Video.reachable self -> Calibrator.reachable (gaze_calibrator self).
Proof.
  induction 1 as [cfg clk | self gazes ts n _ IH]; [apply Calibrator.reach_init |].
  unfold _process_single_frame.
  pose proof (fold_process_gaze ts gazes
                {| fa_frame_number := n; fa_timestamp := ts;
                   fa_alert_level := "NO_ALERT"; fa_suspicion_score := 0;
                   fa_is_looking_away := None; fa_details := None |} self)
    as H.
  destruct (fold_left _ _ _) as [fa' self']. apply H. exact IH.
Qed.

(** The detector is not called before the calibrator is calibrated: a frame
    after which fewer than 30 detections with a facial structure have been
    seen leaves the detector as it was and reports the default analysis,
    NO_ALERT with score 0. *)
Theorem detector_idle_until_calibrated self gazes timestamp frame_number :
  Video.reachable self ->
  (frame_count (gaze_calibrator self) + structured gazes < 30)%Z ->
  let '(fa, self') :=
    _process_single_frame self gazes timestamp frame_number in
  cheating_detector self' = cheating_detector self /\
  fa = default_analysis timestamp frame_number /\
  frame_count (gaze_calibrator self') =
    (frame_count (gaze_calibrator self) + structured gazes)%Z.
Proof.
  intros Hr Hlt. unfold _process_single_frame.
  pose proof (fold_process_gaze timestamp gazes
                (default_analysis timestamp frame_number) self) as H.
  unfold default_analysis in *.
  destruct (fold_left _ _ _) as [fa' self'].
  destruct (H (reachable_calibrator self Hr)) as (_ & Hc & _ & Hd).
  rewrite Hc in Hd. destruct (Hd Hlt) as (-> & ->). repeat split. exact Hc.
Qed.

(** A frame none of whose detections has five landmarks changes neither the
    calibrator nor the detector and reports the default analysis. *)
Theorem unstructured_frame_ignored self gazes timestamp frame_number :
  Video.reachable self ->
  structured gazes = 0%Z ->
  _process_single_frame self gazes timestamp frame_number =
  (default_analysis timestamp frame_number, self).
Proof.
  intros Hr Hz. unfold _process_single_frame.
  pose proof (fold_process_gaze timestamp gazes
                (default_analysis timestamp frame_number) self) as H.
  unfold default_analysis in *.
  destruct (fold_left _ _ _) as [fa' self'].
  destruct (H (reachable_calibrator self Hr)) as (_ & _ & Hn & _).
  destruct (Hn Hz) as (-> & ->). reflexivity.
Qed.

Lemma detector_idle_until_calibrated_witness :
  cheating_detector
    (snd (_process_single_frame (Video.init Config.initial (clock_at 1000))
            (vf_gazes (keyless_frame (480, 640)%Z (clock_at 1001) 0 0))
            0 0))
  = Detector.init Config.initial (clock_at 1000).
Proof.
  pose proof (detector_idle_until_calibrated
                (Video.init Config.initial (clock_at 1000))
                (vf_gazes (keyless_frame (480, 640)%Z (clock_at 1001) 0 0))
                0 0 (Video.reach_init _ _)) as H.
  destruct (_process_single_frame _ _ _ _) as [fa self'].
  apply H. vm_compute. reflexivity.
Defined.

Lemma unstructured_frame_ignored_witness :
  _process_single_frame (Video.init Config.initial (clock_at 1000))
    [({| face := {| face_x := 320; face_y := 240; width := 150;
                    height := 200; landmarks := None |};
         yaw := 1; pitch := 1 |}, clock_at 1001)] 0 0
  = (default_analysis 0 0, Video.init Config.initial (clock_at 1000)).
Proof.
  apply unstructured_frame_ignored; [apply Video.reach_init | reflexivity].
Defined.

End VideoFacts.

(** ** A session without an API key *)

Section Keyless.
Import Config Calibrator FaceAnalysis Detector Video.

Local Open Scope string_scope.

(** A call that passes the input guard, with the state [s1] on which the
    alert level is determined spelled out. *)
Lemma analyze_valid_full self cg f ts clk :
  Qltb (confidence cg) 0.3 = false ->
  let yaw := calibrated_yaw cg in
  let pitch := calibrated_pitch cg in
  let now := time_time clk in
  let away := _is_looking_away self yaw pitch in
  exists d v s1,
    analyze_gaze_behavior self (Some cg) (Some f) ts clk =
      (let '(alert_level, s2) := _determine_alert_level s1 d now clk in
       (_create_detection_result s2 away alert_level now
          (Some {| x_looking_away_duration := d;
                   x_total_away_time := total_looking_away_time s2;
                   x_suspicion_score := suspicion_score s2;
                   x_head_movement_velocity := v;
                   x_yaw := yaw;
                   x_pitch := pitch;
                   x_confidence := confidence cg |}),
        s2)) /\
    config s1 = config self /\
    cheating_alerts s1 = cheating_alerts self /\
    last_alert_time s1 = last_alert_time self /\
    alert_active s1 = alert_active self /\
    suspicion_score s1 =
      py_min (MAX_SUSPICION_SCORE (config self))
        (py_max 0 (suspicion_score self
                   + _calculate_suspicion_increase self away d v yaw pitch)) /\
    repeated_patterns s1 =
      repeated_patterns (_update_pattern_detection self yaw pitch now) /\
    looking_away_start s1 =
      (if away
       then match looking_away_start self with
            | None => Some now
            | Some t0 => Some t0
            end
       else None) /\
    d = (if away
         then match looking_away_start self with
              | None => now - now
              | Some t0 => now - t0
              end
         else 0).
Proof.
  intros Hc yaw pitch now away. unfold analyze_gaze_behavior. rewrite Hc.
  fold yaw pitch away. fold now.
  destruct away eqn:Ea; destruct (looking_away_start self) as [t0 |] eqn:Es;
    cbv zeta;
    match goal with
    | |- context [_calculate_head_movement ?s ?y ?p] =>
      pose proof (head_movement_state s y p) as Hh;
      destruct (_calculate_head_movement s y p) as [v s'];
      cbn [snd] in Hh; subst s'
    end;
    (eexists _, v, _; split; [reflexivity |]);
    cbn; rewrite ?Es; repeat split.
Qed.

(** A quiet detector, given a gaze straight at the screen: the call
    reports NO_ALERT with score 0 and leaves the detector quiet. *)
Lemma analyze_neutral det cg f ts clk :
  quiet det ->
  calibrated_yaw cg == 0 -> calibrated_pitch cg == 0 ->
  0.3 <= confidence cg ->
  let '(r, det') := analyze_gaze_behavior det (Some cg) (Some f) ts clk in
  r_alert_level r = "NO_ALERT" /\ r_suspicion_score r = 0 /\ quiet det'.
Proof.
  intros (Hcfg & Hsc & Hal & Hac & Hp & Hst) Hy Hpi Hc.
  apply Qltb_false in Hc.
  destruct (analyze_valid_full det cg f ts clk Hc)
    as (d & v & s1 & -> & Hcfg1 & Hal1 & _ & Hac1 & Hsc1 & Hp1 & Hst1 & Hd).
  assert (Ha : _is_looking_away det (calibrated_yaw cg) (calibrated_pitch cg)
               = false).
  { unfold _is_looking_away. rewrite Hcfg. cbn.
    assert (E1 : Qgtb (calibrated_pitch cg) 0.3 = false)
      by (apply Qgtb_false; lra).
    assert (E2 : Qgtb (Qabs (calibrated_yaw cg)) 0.5 = false).
    { apply Qgtb_false. rewrite Hy. vm_compute. discriminate. }
    now rewrite E1, E2. }
  rewrite Ha in *. rewrite suspicion_increase_attentive in Hsc1.
  rewrite Hcfg, Hsc in Hsc1.
  assert (Hp1' : repeated_patterns s1 =
                 {| downward_looks := 0; side_looks := 0; head_turns := 0 |}).
  { rewrite Hp1. unfold _update_pattern_detection. rewrite Hcfg, Hp. cbn.
    assert (E1 : Qgtb (calibrated_pitch cg) 0.3 = false)
      by (apply Qgtb_false; lra).
    assert (E2 : Qgtb (Qabs (calibrated_yaw cg)) 0.5 = false).
    { apply Qgtb_false. rewrite Hy. vm_compute. discriminate. }
    assert (E3 : Qgtb (Qabs (calibrated_yaw cg)) 0.4 = false).
    { apply Qgtb_false. rewrite Hy. vm_compute. discriminate. }
    now rewrite E1, E2, E3. }
  assert (Hsc0 : suspicion_score s1 = 0) by (rewrite Hsc1; reflexivity).
  pose proof (determine_table s1 d (time_time clk) clk) as Ht.
  pose proof (determine_frame s1 d (time_time clk) clk) as Hf.
  cbv zeta in Ht, Hf.
  destruct (_determine_alert_level s1 d (time_time clk) clk) as [lvl s2].
  cbn [fst snd] in Ht, Hf.
  destruct Hf as (Hc2 & Hs2 & _ & Hst2 & Hp2 & _).
  rewrite Hcfg1, Hcfg, Hac1, Hac, Hsc0, Hp1', Hd in Ht. cbn in Ht.
  assert (Hq : lvl = "NO_ALERT" /\ cheating_alerts s2 = [] /\
               alert_active s2 = false).
  { destruct Ht as [(_ & -> & ->) |
      (_ & [(Hx & _) |
        (_ & [(Hx & _) |
          (_ & [(Hx & _) |
            (_ & [(Hx & _) | (_ & -> & ->)])])])])].
    - repeat split; congruence.
    - exfalso. revert Hx. vm_compute. discriminate.
    - exfalso. revert Hx. vm_compute. discriminate.
    - exfalso. revert Hx. vm_compute. discriminate.
    - exfalso. lia.
    - cbn. repeat split; congruence. }
  destruct Hq as (-> & Hal2 & Hac2). cbn.
  unfold quiet. repeat split; congruence.
Qed.

Lemma Qsum_const (c : Q) (l : list Q) :
  Forall (fun x => x == c) l -> Qsum l == c * inject_Z (len l).
Proof.
  induction 1 as [| x l Hx _ IH].
  - cbn. ring.
  - rewrite len_cons_Q. cbn [Qsum fold_right]. fold (Qsum l).
    rewrite IH, Hx. ring.
Qed.

Lemma np_mean_const (c : Q) (l : list Q) :
  (0 < len l)%Z -> Forall (fun x => x == c) l -> np_mean l == c.
Proof.
  intros Hl Hc. unfold np_mean. rewrite (Qsum_const c l Hc).
  assert (Hn : ~ inject_Z (len l) == 0).
  { change 0 with (inject_Z 0). rewrite inject_Z_injective. lia. }
  field. exact Hn.
Qed.

Lemma Forall_map_fst {A B} (P : A -> Prop) (l : list (A * B)) :
  Forall (fun d => P (fst d)) l -> Forall P (map fst l).
Proof. intros H. apply Forall_map. exact H. Qed.

Lemma Forall_map_snd {A B} (P : B -> Prop) (l : list (A * B)) :
  Forall (fun d => P (snd d)) l -> Forall P (map snd l).
Proof. intros H. apply Forall_map. exact H. Qed.

(** The root of a rational equal to the square of an integer. *)
Lemma Qsqrt_of_square (c : Z) (q : Q) :
  (0 <= c)%Z -> q == inject_Z (c * c) -> Qsqrt q == inject_Z c.
Proof.
  intros Hc Hq. unfold Qeq in Hq. cbn [inject_Z Qnum Qden] in Hq.
  unfold Qsqrt, Qeq. cbn [inject_Z Qnum Qden].
  rewrite Z.mul_1_r in Hq. rewrite Hq, Z.mul_1_r, Pos2Z.inj_mul.
  replace (c * c * Z.pos (Qden q) * Z.pos (Qden q) * 2 ^ 104)%Z
    with ((c * Z.pos (Qden q) * 2 ^ 52) * (c * Z.pos (Qden q) * 2 ^ 52))%Z
    by ring.
  rewrite Z.sqrt_square.
  - change (Z.pos (2 ^ 52)) with (2 ^ 52)%Z. ring.
  - assert (0 < Z.pos (Qden q))%Z by lia. assert (0 < 2 ^ 52)%Z by lia.
    apply Z.mul_nonneg_nonneg; [apply Z.mul_nonneg_nonneg |]; lia.
Qed.

(** Without an API key [detect_gazes] returns one detection, facing the
    screen, whose facial structure is 150 by 200 with eyes 60 apart,
    whatever the frame shape. *)
Lemma dummy_detection frame_shape :
  exists g fs,
    detect_gazes "" frame_shape [] = [g] /\
    yaw g = 0.0 /\ pitch g = 0.0 /\
    analyze_facial_structure (face g) = Some fs /\
    face_dimensions fs = (150, 200) /\
    eye_distance fs == 60.
Proof.
  destruct frame_shape as [rows cols]. unfold detect_gazes.
  cbn [String.eqb fst snd]. eexists _, _.
  split; [reflexivity |]. split; [reflexivity |]. split; [reflexivity |].
  cbn [face]. unfold analyze_facial_structure. cbn [landmarks width height].
  unfold len. cbn [List.length]. change (Z.of_nat 5 <? 5)%Z with false.
  cbv iota. rewrite scan_landmarks_three. cbn [lm_x lm_y fst snd].
  split; [reflexivity |]. split; [reflexivity |]. cbn [eye_distance].
  apply (Qsqrt_of_square 60); [lia |].
  generalize (cols / 2)%Z (rows / 2)%Z. intros a b.
  unfold Qeq. cbn. ring.
Qed.

Lemma np_clip_zero (x lo hi : Q) :
  lo <= 0 -> 0 <= hi -> x == 0 -> np_clip x lo hi == 0.
Proof.
  intros Hlo Hhi Hx. unfold np_clip, np_maximum. qcases;
    unfold np_minimum; qcases; lra.
Qed.

Lemma update_dummy cal gd fs :
  dummy_data cal ->
  gd_yaw gd = Some 0.0 -> gd_pitch gd = Some 0.0 ->
  face_dimensions fs = (150, 200) -> eye_distance fs == 60 ->
  dummy_data (fst (update_baseline cal gd (Some fs))).
Proof.
  intros (H1 & H2 & H3 & H4 & H5) Hy Hp Hd He.
  assert (Hgoal : forall cal',
            frame_count cal' = (frame_count cal + 1)%Z ->
            calibration_data cal' =
              {| cd_eye_distances :=
                   cd_eye_distances (calibration_data cal) ++ [eye_distance fs];
                 cd_face_dimensions :=
                   cd_face_dimensions (calibration_data cal)
                   ++ [face_dimensions fs];
                 cd_head_poses :=
                   cd_head_poses (calibration_data cal)
                   ++ [(get (gd_yaw gd) 0, get (gd_pitch gd) 0)];
                 cd_pupil_positions :=
                   cd_pupil_positions (calibration_data cal) |} ->
            dummy_data cal').
  { intros cal' Hc Hcd. unfold dummy_data. rewrite Hcd, Hc. cbn.
    rewrite !len_app_one, H1, H2, Hy, Hp, Hd. cbn.
    repeat split; try reflexivity; apply Forall_app; split;
      try assumption; repeat constructor; try reflexivity; exact He. }
  unfold update_baseline. cbv zeta.
  match goal with
  | |- context [if ?c then _ else _] => destruct c
  end; cbn [fst].
  - unfold _establish_baseline. cbn.
    match goal with
    | |- context [if ?c then _ else _] => destruct c
    end; apply Hgoal; reflexivity.
  - apply Hgoal; reflexivity.
Qed.

(** The prediction of a calibrated calibrator fed with dummy detections
    only, for one more dummy detection: straight at the screen, with
    confidence 1. *)
Lemma keyless_prediction cal fs :
  calibrator_inv cal -> dummy_data cal -> is_calibrated cal = true ->
  face_dimensions fs = (150, 200) -> eye_distance fs == 60 ->
  exists cg,
    calibrated_gaze_prediction cal
      {| gd_yaw := Some 0.0; gd_pitch := Some 0.0 |} fs = Some cg /\
    calibrated_yaw cg == 0 /\ calibrated_pitch cg == 0 /\
    0.3 <= confidence cg.
Proof.
  intros (_ & Hn & Hb) (H1 & H2 & H3 & H4 & H5) Hc Hd He.
  assert (Hge : (frame_count cal >=? 30)%Z = true).
  { destruct (frame_count cal >=? 30)%Z; [reflexivity |].
    destruct Hb as (Hf & _). unfold is_calibrated in Hc.
    rewrite Hf in Hc. discriminate. }
  rewrite Hge in Hb. destruct Hb as (Hfb & Heb & Hhb).
  assert (Hpos : (0 < frame_count cal)%Z) by lia.
  set (cd := calibration_data cal) in *.
  assert (Mw : np_mean (map fst (cd_face_dimensions cd)) == 150).
  { apply np_mean_const.
    - unfold len in *. rewrite length_map. lia.
    - apply Forall_map. eapply Forall_impl; [| exact H3].
      intros d Hx. exact (proj1 Hx). }
  assert (Mh : np_mean (map snd (cd_face_dimensions cd)) == 200).
  { apply np_mean_const.
    - unfold len in *. rewrite length_map. lia.
    - apply Forall_map. eapply Forall_impl; [| exact H3].
      intros d Hx. exact (proj2 Hx). }
  assert (Me : np_mean (cd_eye_distances cd) == 60).
  { apply np_mean_const; [lia | exact H4]. }
  assert (My : np_mean (map fst (cd_head_poses cd)) == 0).
  { apply np_mean_const.
    - unfold len in *. rewrite length_map. lia.
    - apply Forall_map. eapply Forall_impl; [| exact H5].
      intros d Hx. exact (proj1 Hx). }
  assert (Mp : np_mean (map snd (cd_head_poses cd)) == 0).
  { apply np_mean_const.
    - unfold len in *. rewrite length_map. lia.
    - apply Forall_map. eapply Forall_impl; [| exact H5].
      intros d Hx. exact (proj2 Hx). }
  unfold calibrated_gaze_prediction, _calculate_confidence.
  rewrite Hc, Hfb, Heb, Hhb. cbn [negb].
  eexists. split; [reflexivity |].
  cbn [calibrated_yaw calibrated_pitch confidence get gd_yaw gd_pitch
       hb_yaw hb_pitch fb_width fb_height eb_distance head_pose_stats
       face_stats eye_stats].
  rewrite Hd. cbn [fst snd].
  assert (Hlo2 : - np_pi / 2 <= 0) by (vm_compute; discriminate).
  assert (Hhi2 : 0 <= np_pi / 2) by (vm_compute; discriminate).
  assert (Hlo3 : - np_pi / 3 <= 0) by (vm_compute; discriminate).
  assert (Hhi3 : 0 <= np_pi / 3) by (vm_compute; discriminate).
  split; [| split].
  - apply np_clip_zero; try assumption. rewrite My. ring.
  - apply np_clip_zero; try assumption. rewrite Mp. ring.
  - assert (Dw : Qabs (150 - np_mean (map fst (cd_face_dimensions cd))) == 0)
      by (apply Qabs_diff_zero; now symmetry).
    assert (Dh : Qabs (200 - np_mean (map snd (cd_face_dimensions cd))) == 0)
      by (apply Qabs_diff_zero; now symmetry).
    assert (De : Qabs (eye_distance fs - np_mean (cd_eye_distances cd)) == 0)
      by (apply Qabs_diff_zero; rewrite He; now symmetry).
    set (dw := Qabs (150 - np_mean (map fst (cd_face_dimensions cd)))) in *.
    set (dh := Qabs (200 - np_mean (map snd (cd_face_dimensions cd)))) in *.
    set (de := Qabs (eye_distance fs - np_mean (cd_eye_distances cd))) in *.
    assert (H6 : (dw + dh) / 200 == 0) by (rewrite Dw, Dh; reflexivity).
    assert (H7 : de / 50 == 0) by (rewrite De; reflexivity).
    rewrite (py_min_below ((dw + dh) / 200)) by lra.
    rewrite (py_min_below (de / 50)) by lra.
    rewrite H6, H7. vm_compute. discriminate.
Qed.

Lemma keyless_frame_step self frame_shape clk ts n :
  quiet (cheating_detector self) ->
  Calibrator.reachable (gaze_calibrator self) ->
  dummy_data (gaze_calibrator self) ->
  let '(fa, self') :=
    _process_single_frame self
      (vf_gazes (keyless_frame frame_shape clk ts n)) ts n in
  fa_alert_level fa = "NO_ALERT" /\ fa_suspicion_score fa = 0 /\
  quiet (cheating_detector self') /\
  Calibrator.reachable (gaze_calibrator self') /\
  dummy_data (gaze_calibrator self').
Proof.
  intros Hq Hr Hdd.
  destruct (dummy_detection frame_shape)
    as (g & fs & Hg & Hy & Hp & Hfs & Hd & He).
  unfold keyless_frame. cbn [vf_gazes]. rewrite Hg. cbn [map].
  unfold _process_single_frame. cbn [fold_left]. unfold process_gaze.
  rewrite Hfs. cbv zeta.
  assert (Hgd : gaze_data_of g = {| gd_yaw := Some 0.0; gd_pitch := Some 0.0 |})
    by (unfold gaze_data_of; now rewrite Hy, Hp).
  rewrite Hgd.
  set (cal := fst (update_baseline (gaze_calibrator self)
                     {| gd_yaw := Some 0.0; gd_pitch := Some 0.0 |}
                     (Some fs))).
  assert (Hr' : Calibrator.reachable cal) by now apply reach_update.
  assert (Hdd' : dummy_data cal) by now apply update_dummy.
  clearbody cal.
  destruct (is_calibrated cal) eqn:Ec.
  - destruct (keyless_prediction cal fs (reachable_inv _ Hr') Hdd' Ec Hd He)
      as (cg & -> & Hcy & Hcp & Hcc).
    pose proof (analyze_neutral (cheating_detector self) cg fs ts clk
                  Hq Hcy Hcp Hcc) as Ha.
    cbn [cheating_detector].
    destruct (analyze_gaze_behavior (cheating_detector self) (Some cg)
                (Some fs) ts clk) as [r det].
    destruct Ha as (Hl & Hs & Hq').
    cbn [fa_alert_level fa_suspicion_score cheating_detector gaze_calibrator].
    split; [exact Hl |]. split; [exact Hs |]. split; [exact Hq' |].
    split; assumption.
  - assert (Hn : calibrated_gaze_prediction cal
                   {| gd_yaw := Some 0.0; gd_pitch := Some 0.0 |} fs = None)
      by now apply prediction_none_iff.
    rewrite Hn.
    cbn [fa_alert_level fa_suspicion_score cheating_detector gaze_calibrator].
    split; [reflexivity |]. split; [reflexivity |]. split; [exact Hq |].
    split; assumption.
Qed.

(** Without an API key, whatever the frames and the clock, every frame of a
    video is reported as NO_ALERT with suspicion score 0, and the detector
    ends with score 0, an empty alert log and no alert active. *)
Theorem keyless_session_never_alerts clk0
    (specs : list ((Z * Z) * Clock * Q * Z)) :
  let frames :=
    map (fun '(frame_shape, clk, ts, n) => keyless_frame frame_shape clk ts n)
        specs in
  let '(analyses, self) :=
    process_frames (Video.init Config.initial clk0) frames in
  Forall (fun fa => fa_alert_level fa = "NO_ALERT" /\
                    fa_suspicion_score fa = 0) analyses /\
  suspicion_score (cheating_detector self) = 0 /\
  cheating_alerts (cheating_detector self) = [] /\
  alert_active (cheating_detector self) = false.
Proof.
  cbv zeta.
  assert (Hgen : forall self,
            quiet (cheating_detector self) ->
            Calibrator.reachable (gaze_calibrator self) ->
            dummy_data (gaze_calibrator self) ->
            let '(analyses, self') :=
              process_frames self
                (map (fun '(frame_shape, clk, ts, n) =>
                        keyless_frame frame_shape clk ts n) specs) in
            Forall (fun fa => fa_alert_level fa = "NO_ALERT" /\
                              fa_suspicion_score fa = 0) analyses /\
            quiet (cheating_detector self')).
  { induction specs as [| [[[frame_shape clk] ts] n] rest IH];
      intros self Hq Hr Hd.
    - cbn. split; [constructor | exact Hq].
    - cbn [map process_frames].
      change (vf_timestamp (keyless_frame frame_shape clk ts n)) with ts.
      change (vf_number (keyless_frame frame_shape clk ts n)) with n.
      pose proof (keyless_frame_step self frame_shape clk ts n Hq Hr Hd) as Hs.
      destruct (_process_single_frame self _ ts n) as [fa self1].
      destruct Hs as (Hl & Hsc & Hq1 & Hr1 & Hd1).
      specialize (IH self1 Hq1 Hr1 Hd1).
      destruct (process_frames self1 _) as [rest_a self2].
      destruct IH as (Hall & Hq2). split; [| exact Hq2].
      constructor; [split; assumption | exact Hall]. }
  specialize (Hgen (Video.init Config.initial clk0)).
  destruct (process_frames _ _) as [analyses self].
  destruct Hgen as (Hall & (_ & Hs & Ha & Hac & _)).
  - unfold quiet. cbn. repeat split.
  - apply Calibrator.reach_init.
  - unfold dummy_data. cbn. repeat split; constructor.
  - repeat split; assumption.
Qed.

End Keyless.
